(** * dvc/stage/run.py: the stage runner, embedded and verified

    The module runs the command(s) of a pipeline stage: it consults the run
    cache, composes the shell invocation, launches one child process per
    command, suppresses SIGINT in the main thread while it waits, and, for
    checkpoint stages, runs a monitor that polls for a marker file.

    The embedding follows the source function by function.  Python values
    keep their shape: [None] is a constructor, truthiness is a function,
    exceptions are values of [pyexn] threaded through a state-and-exception
    monad.  Everything the module asks of the outside (the run cache, the
    operating system, the child process, the callbacks) is answered by an
    [Oracle] that sees the history of events so far.

    What may raise: [Popen], the cache's [restore], [stage.save],
    [stage.commit], the checkpoint callback, [proc.terminate] and the
    taskkill call (as the oracle decides), the [assert] of
    [_enforce_cmd_list], and [os.remove] when the marker file is no longer
    there (a missing file is the one failure of the file system in the
    model).  The other library calls (logging, [signal.signal] in the main
    thread, [os.path.exists], [wait], [communicate]) return; a child that
    never exits, for which [wait] and [communicate] would block for ever, is
    outside the model.  The child may create the marker file at any time, and
    anybody may remove it (the oracle says when).  Assertions are enabled. *)

From Stdlib Require Import String Ascii List ZArith Bool Lia.
From Stdlib Require Import DecimalString.
Import ListNotations.
Local Open Scope string_scope.
Local Open Scope Z_scope.
Local Open Scope list_scope.

Set Implicit Arguments.

(** ** Strings: the two library functions [_make_cmd] relies on *)

Module PyStr.

(** [str.lower] on the ASCII letters (the only characters that can
    lower-case to a letter of "zsh" or "bash"). *)
Definition lower_ascii (c : ascii) : ascii :=
  let n := nat_of_ascii c in
  if andb (Nat.leb 65 n) (Nat.leb n 90) then ascii_of_nat (n + 32) else c.

Fixpoint lower (s : string) : string :=
  match s with
  | EmptyString => EmptyString
  | String c r => String (lower_ascii c) (lower r)
  end.

Definition is_sep (c : ascii) : bool := Ascii.eqb c "/"%char.

Fixpoint has_sep (s : string) : bool :=
  match s with
  | EmptyString => false
  | String c r => is_sep c || has_sep r
  end.

(** [posixpath.basename]: what follows the last "/" ([p[p.rfind('/')+1:]]). *)
Fixpoint basename (p : string) : string :=
  match p with
  | EmptyString => EmptyString
  | String c r =>
      if has_sep r then basename r
      else if is_sep c then r else p
  end.

(** [str(n)] for a non-negative integer. *)
Definition str_of_nat (n : nat) : string :=
  NilZero.string_of_uint (Nat.to_uint n).

End PyStr.

(** ** Python values of the module *)

(** [stage.cmd]: absent, one string, or a list of strings. *)
Inductive stage_cmd :=
| CmdNone
| CmdStr (s : string)
| CmdList (l : list string).

(** Python truthiness of a string, and of [stage.cmd]. *)
Definition str_truthy (s : string) : bool :=
  match s with EmptyString => false | _ => true end.

Definition cmd_truthy (c : stage_cmd) : bool :=
  match c with
  | CmdNone => false
  | CmdStr s => str_truthy s
  | CmdList l => match l with [] => false | _ => true end
  end.

(** What [subprocess.Popen] receives: the command string itself (Windows,
    [shell=True]) or an argument vector. *)
Inductive exec_cmd :=
| ShellString (cmd : string)
| Argv (argv : list string).

(** SIGINT handlers as [signal.signal] takes and returns them.  [SIG_DFL] and
    [SIG_IGN] are the members 0 and 1 of the integer enumeration
    [signal.Handlers]; [HandlerNone] is Python's [None] (the initial value of
    [old_handler], and what [signal.signal] returns for a handler that was not
    installed from Python). *)
Inductive sighandler :=
| HandlerNone
| SIG_DFL
| SIG_IGN
| PyHandler (id : nat).

Definition handler_truthy (h : sighandler) : bool :=
  match h with
  | HandlerNone => false
  | SIG_DFL => false
  | SIG_IGN => true
  | PyHandler _ => true
  end.

(** Exceptions.  [CheckpointKilledError] is a subclass of
    [StageCmdFailedError]; both carry the command and the return code as
    passed.  [OtherException] stands for any other subclass of [Exception],
    [SystemExiting] for the exceptions that derive from [BaseException]
    only ([SystemExit], [KeyboardInterrupt]). *)
Inductive pyexn :=
| AssertionError
| RunCacheNotFoundError
| StageCmdFailedError (cmd : string) (retcode : option Z)
| CheckpointKilledError (cmd : string) (retcode : option Z)
| FileNotFoundError (path : string)
| OtherException (name : string)
| SystemExiting (name : string).

Definition isinstance_Exception (e : pyexn) : bool :=
  match e with
  | SystemExiting _ => false
  | _ => true
  end.

Definition isinstance_RunCacheNotFoundError (e : pyexn) : bool :=
  match e with
  | RunCacheNotFoundError => true
  | _ => false
  end.

(** A callable passed as [checkpoint_func]; what it does when called is
    the oracle's business. *)
Inductive callable := Callable (id : nat).

Record Stage := {
  cmd : stage_cmd;
  wdir : string;
  is_callback : bool;
  addressing : string;
  root_dir : string;      (* stage.repo.root_dir *)
  tmp_dir : string        (* stage.repo.tmp_dir *)
}.

(** The keyword arguments [prepare_kwargs] builds for [Popen]. *)
Record Kwargs := {
  kw_cwd : string;
  kw_env : list (string * string);
  kw_close_fds : bool;
  kw_shell : bool
}.

(** ** Command composition *)

Definition CHECKPOINT_SIGNAL_FILE : string := "DVC_CHECKPOINT".

(** [opts.get(name, [])] for the dictionary of [_make_cmd]. *)
Definition opts_get (name : string) : list string :=
  if String.eqb name "zsh" then ["--no-rcs"]
  else if String.eqb name "bash" then ["--noprofile"; "--norc"]
  else [].

Definition _make_cmd (executable : option string) (cmd : string) : exec_cmd :=
  match executable with
  | None => ShellString cmd
  | Some exe =>
      let name := PyStr.lower (PyStr.basename exe) in
      Argv ([exe] ++ opts_get name ++ ["-c"; cmd])
  end.

(** [os.name] and [os.getenv("SHELL")] are inputs. *)
Definition get_executable (os_name : string) (shell : option string)
  : option string :=
  if negb (String.eqb os_name "nt") then
    Some (match shell with
          | Some s => if str_truthy s then s else "/bin/sh"
          | None => "/bin/sh"
          end)
  else None.

(** ** Events, the world and the oracle *)

(** What a run does to the outside, in program order. *)
Inductive event :=
| EvLogInfo (msg : string)                 (* logger.info("Running ...") *)
| EvDisplay (c : string)                   (* display_command *)
| EvWarnFish                               (* logger.warning of warn_if_fish *)
| EvLogDebug (msg : string)
| EvLogException (msg : string)
| EvRestore                                (* stage_cache.restore(stage) *)
| EvLockRelease                            (* repo.lock.unlock() *)
| EvLockAcquire                            (* repo.lock.lock() *)
| EvPopen (c : exec_cmd) (kw : Kwargs)     (* subprocess.Popen(c, **kw) *)
| EvExit (pid : nat) (code : Z)            (* exit status collected *)
| EvSignal (h : sighandler)                (* signal.signal(SIGINT, h) *)
| EvThreadStart                            (* monitor_thread.start() *)
| EvThreadDied (e : pyexn)                 (* an uncaught exception ends it *)
| EvThreadJoin                             (* monitor_thread.join() *)
| EvPoll (present : bool)                  (* os.path.exists(signal_path) *)
| EvSave                                   (* stage.save(allow_missing=True) *)
| EvCommit                                 (* stage.commit(allow_missing=True)*)
| EvCall (f : callable)                    (* callback_func() *)
| EvTerminate (pid : nat)                  (* proc.terminate() has signalled *)
| EvSubprocessCall (argv : list string)    (* subprocess.call(argv) has run *)
| EvKilledSet                              (* killed.set() *)
| EvRemove (path : string)                 (* os.remove(path) *)
| EvDoneWait (stop : bool)                 (* done.wait(1) *)
| EvDoneSet.                               (* done.set() *)

(** A [subprocess.Popen] object: the process id and the [returncode]
    attribute, [None] until the exit status has been collected. *)
Record Popen := {
  pid : nat;
  returncode : option Z
}.

(** The state a run works on: the history, the SIGINT disposition of the
    interpreter, the marker file as the monitor has last seen it (at its
    last [os.path.exists] or [os.remove]), the one [Popen] object of the
    current [_run] frame (shared with the monitor thread), and the locals of
    [_run] that its [finally] block and its last lines read. *)
Record World := {
  trace : list event;
  sigint : sighandler;
  marker : bool;
  p : option Popen;
  old_handler : sighandler;
  killed : bool
}.

(** Everything the module does not decide itself.  The answers may depend on
    the history of events. *)
Record Oracle := {
  os_name : string;                                   (* os.name *)
  getenv_SHELL : option string;                       (* os.getenv("SHELL") *)
  realpath : string -> string;                        (* os.path.realpath *)
  path_join : string -> string -> string;             (* os.path.join *)
  fix_env : list (string * string);                   (* utils.fix_env(None) *)
  DVC_CHECKPOINT : string;                            (* dvc.env *)
  DVC_ROOT : string;                                  (* dvc.env *)
  in_main_thread : bool;      (* current_thread() is a threading._MainThread *)
  restore_raises : list event -> option pyexn;        (* stage_cache.restore *)
  popen_result : exec_cmd -> list event -> pyexn + nat;  (* raise, or the pid *)
  exit_code : list event -> Z;          (* status of the child when collected *)
  marker_created : list event -> bool;  (* the child has written the marker *)
  marker_gone : list event -> bool;  (* the marker seen is no longer there *)
  save_raises : list event -> option pyexn;           (* stage.save *)
  commit_raises : list event -> option pyexn;         (* stage.commit *)
  call_raises : callable -> list event -> option pyexn;   (* callback_func() *)
  terminate_raises : list event -> option pyexn;      (* proc.terminate() *)
  taskkill_raises : list event -> option pyexn;  (* subprocess.call(taskkill) *)
  stop_requested : list event -> bool   (* done is set when done.wait(1) ends *)
}.

(** ** The monad: state, exceptions, and running out of fuel *)

Inductive outcome (A : Type) :=
| Ok (a : A)
| Raise (e : pyexn)
| Diverge.
Arguments Raise {A} e.
Arguments Diverge {A}.

Definition M (A : Type) := World -> outcome A * World.

Definition ret {A} (a : A) : M A := fun w => (Ok a, w).

Definition bind {A B} (m : M A) (k : A -> M B) : M B :=
  fun w =>
    match m w with
    | (Ok a, w') => k a w'
    | (Raise e, w') => (Raise e, w')
    | (Diverge, w') => (Diverge, w')
    end.

Definition raise {A} (e : pyexn) : M A := fun w => (Raise e, w).

Definition diverge {A} : M A := fun w => (Diverge, w).

(** [try: m  except <classes>: h] *)
Definition try_except {A} (m : M A) (catches : pyexn -> bool)
           (h : pyexn -> M A) : M A :=
  fun w =>
    match m w with
    | (Raise e, w') => if catches e then h e w' else (Raise e, w')
    | r => r
    end.

(** [try: m  finally: f]: [f] runs on return and on raise; an exception of
    [f] replaces the pending one. *)
Definition try_finally {A} (m : M A) (f : M unit) : M A :=
  fun w =>
    match m w with
    | (Diverge, w') => (Diverge, w')
    | (r, w') =>
        match f w' with
        | (Ok _, w'') => (r, w'')
        | (Raise e, w'') => (Raise e, w'')
        | (Diverge, w'') => (Diverge, w'')
        end
    end.

Declare Scope py_scope.
Delimit Scope py_scope with py.
Notation "x <- m ;; k" := (bind m (fun x => k))
  (at level 61, m at next level, right associativity) : py_scope.
Notation "m ;; k" := (bind m (fun _ => k))
  (at level 61, right associativity) : py_scope.
Local Open Scope py_scope.

(** State accessors. *)
Definition emit (e : event) : M unit :=
  fun w => (Ok tt, {| trace := trace w ++ [e]; sigint := sigint w;
                      marker := marker w; p := p w;
                      old_handler := old_handler w; killed := killed w |}).

Definition gets {A} (f : World -> A) : M A := fun w => (Ok (f w), w).

Definition set_sigint (h : sighandler) : M unit :=
  fun w => (Ok tt, {| trace := trace w; sigint := h; marker := marker w;
                      p := p w; old_handler := old_handler w;
                      killed := killed w |}).

Definition set_marker (b : bool) : M unit :=
  fun w => (Ok tt, {| trace := trace w; sigint := sigint w; marker := b;
                      p := p w; old_handler := old_handler w;
                      killed := killed w |}).

Definition set_p (q : option Popen) : M unit :=
  fun w => (Ok tt, {| trace := trace w; sigint := sigint w;
                      marker := marker w; p := q;
                      old_handler := old_handler w; killed := killed w |}).

Definition set_old_handler (h : sighandler) : M unit :=
  fun w => (Ok tt, {| trace := trace w; sigint := sigint w;
                      marker := marker w; p := p w;
                      old_handler := h; killed := killed w |}).

Definition set_killed (b : bool) : M unit :=
  fun w => (Ok tt, {| trace := trace w; sigint := sigint w;
                      marker := marker w; p := p w;
                      old_handler := old_handler w; killed := b |}).

Definition when (b : bool) (m : M unit) : M unit := if b then m else ret tt.

Definition lift {A} (o : outcome A) : M A := fun w => (o, w).

(** [d.update(u)] on a dictionary kept as an association list. *)
Fixpoint dict_set (k v : string) (d : list (string * string))
  : list (string * string) :=
  match d with
  | [] => [(k, v)]
  | (k', v') :: r =>
      if String.eqb k k' then (k, v) :: r else (k', v') :: dict_set k v r
  end.

Definition dict_update (d u : list (string * string))
  : list (string * string) :=
  fold_left (fun acc kv => dict_set (fst kv) (snd kv) acc) u d.

(** ** The module *)

Section Run.

Variable E : Oracle.

(** *** Library calls *)

Definition logger_info (msg : string) : M unit := emit (EvLogInfo msg).
Definition logger_debug (msg : string) : M unit := emit (EvLogDebug msg).
Definition logger_exception (msg : string) : M unit :=
  emit (EvLogException msg).

(** [signal.signal(signal.SIGINT, h)]: installs [h], returns the previous
    handler. *)
Definition signal_signal (h : sighandler) : M sighandler :=
  old <- gets sigint ;;
  set_sigint h ;;
  emit (EvSignal h) ;;
  ret old.

(** [subprocess.Popen(exec_cmd, **kwargs)]: raises, or yields a fresh
    object whose status has not been collected. *)
Definition subprocess_Popen (c : exec_cmd) (kw : Kwargs) : M Popen :=
  emit (EvPopen c kw) ;;
  t <- gets trace ;;
  match popen_result E c t with
  | inl e => raise e
  | inr n => ret {| pid := n; returncode := None |}
  end.

(** Collecting the exit status of the child: the first of
    [proc.communicate()] and [proc.wait()] stores it in [returncode]. *)
Definition collect_status : M unit :=
  q <- gets p ;;
  match q with
  | Some pr =>
      match returncode pr with
      | None =>
          t <- gets trace ;;
          let code := exit_code E t in
          set_p (Some {| pid := pid pr; returncode := Some code |}) ;;
          emit (EvExit (pid pr) code)
      | Some _ => ret tt
      end
  | None => ret tt
  end.

Definition proc_communicate : M unit := collect_status.
Definition proc_wait : M unit := collect_status.

(** A call that acts on the child, or raises without having acted, as the
    oracle decides. *)
Definition acting (raises : list event -> option pyexn) (ev : event)
  : M unit :=
  t <- gets trace ;;
  match raises t with
  | Some e => raise e
  | None => emit ev
  end.

(** [proc.terminate()]: SIGTERM is sent, or the call raises (the [OSError]
    of [os.kill]). *)
Definition proc_terminate (proc : nat) : M unit :=
  acting (terminate_raises E) (EvTerminate proc).

(** [subprocess.call(argv)] for the taskkill command: the command is run, or
    the call raises (the command cannot be started). *)
Definition subprocess_call (argv : list string) : M unit :=
  acting (taskkill_raises E) (EvSubprocessCall argv).

(** [os.path.exists(path)] for the marker: the child may have written it
    since the last look. *)
Definition os_path_exists (path : string) : M bool :=
  t <- gets trace ;;
  m <- gets marker ;;
  let present := m || marker_created E t in
  set_marker present ;;
  emit (EvPoll present) ;;
  ret present.

(** [os.remove(path)] for the marker: raises when there is no file, which
    is so when the monitor has seen none or when the file it has seen is
    gone by now.  Either way there is no file afterwards. *)
Definition os_remove (path : string) : M unit :=
  emit (EvRemove path) ;;
  t <- gets trace ;;
  m <- gets marker ;;
  set_marker false ;;
  if m && negb (marker_gone E t) then ret tt
  else raise (FileNotFoundError path).

(** [done.wait(1)]: whether the foreground has set [done] by the end of the
    second. *)
Definition done_wait : M bool :=
  t <- gets trace ;;
  let stop := stop_requested E t in
  emit (EvDoneWait stop) ;;
  ret stop.

(** A call that may raise, as the oracle decides. *)
Definition external (ev : event) (raises : list event -> option pyexn)
  : M unit :=
  emit ev ;;
  t <- gets trace ;;
  match raises t with
  | Some e => raise e
  | None => ret tt
  end.

(** Modelled from the spec: [decorators.relock_repo] is not among the
    sources; the repository lock is re-acquired just for the callback and
    released after it. *)
Definition relock_repo {A} (f : M A) : M A :=
  emit EvLockAcquire ;;
  try_finally f (emit EvLockRelease).

(** Modelled from the spec: [decorators.unlocked_repo] is not among the
    sources; the repository lock is released for the duration of the
    command execution. *)
Definition unlocked_repo {A} (f : M A) : M A :=
  emit EvLockRelease ;;
  try_finally f (emit EvLockAcquire).

(** A thread running [target]: an exception that [target] does not catch
    ends the thread and goes no further. *)
Definition thread_run (target : M unit) : M unit :=
  fun w =>
    match target w with
    | (Raise e, w') => emit (EvThreadDied e) w'
    | r => r
    end.

(** *** The functions of run.py *)

Definition warn_if_fish (executable : option string) : M unit :=
  match executable with
  | None => ret tt
  | Some exe =>
      if negb (String.eqb (PyStr.basename (realpath E exe)) "fish")
      then ret tt
      else emit EvWarnFish
  end.

Definition _enforce_cmd_list (c : stage_cmd) : outcome (list string) :=
  if cmd_truthy c then
    Ok (match c with
        | CmdList l => l
        | CmdStr s => [s]
        | CmdNone => []          (* not truthy: excluded by the assert *)
        end)
  else Raise AssertionError.

Definition _checkpoint_env (stage : Stage) : list (string * string) :=
  [(DVC_CHECKPOINT E, "1"); (DVC_ROOT E, root_dir stage)].

Definition prepare_kwargs (stage : Stage) (checkpoint_func : option callable)
  : Kwargs :=
  let env := fix_env E in
  let env := match checkpoint_func with
             | Some _ => dict_update env (_checkpoint_env stage)
             | None => env
             end in
  {| kw_cwd := wdir stage; kw_env := env; kw_close_fds := true;
     kw_shell := String.eqb (os_name E) "nt" |}.

Definition display_command (c : string) : M unit := emit (EvDisplay c).

Definition _kill_nt (proc : nat) : M unit :=
  subprocess_call ["taskkill"; "/F"; "/T"; "/PID"; PyStr.str_of_nat proc].

Definition _kill (proc : nat) : M unit :=
  if String.eqb (os_name E) "nt" then _kill_nt proc
  else proc_terminate proc ;; proc_wait.

Definition _run_callback (stage : Stage) (callback_func : callable) : M unit :=
  relock_repo
    (external EvSave (save_raises E) ;;
     external EvCommit (commit_raises E) ;;
     logger_debug "Running checkpoint callback for stage" ;;
     external (EvCall callback_func) (call_raises E callback_func)).

Definition signal_path (stage : Stage) : string :=
  path_join E (tmp_dir stage) CHECKPOINT_SIGNAL_FILE.

(** One pass through the body of the [while True] loop, up to the
    [done.wait(1)]. *)
Definition _checkpoint_tick (stage : Stage) (callback_func : callable)
           (proc : nat) : M unit :=
  present <- os_path_exists (signal_path stage) ;;
  if present then
    try_finally
      (try_except
         (_run_callback stage callback_func)
         isinstance_Exception
         (fun _ =>
            logger_exception
              "Error generating checkpoint, stage will be aborted" ;;
            _kill proc ;;
            set_killed true ;;
            emit EvKilledSet))
      (logger_debug "Remove checkpoint signal file" ;;
       os_remove (signal_path stage))
  else ret tt.

(** [while True: <tick>; if done.wait(1): return], with fuel for the
    iterations. *)
Fixpoint _checkpoint_run (fuel : nat) (stage : Stage)
         (callback_func : callable) (proc : nat) : M unit :=
  match fuel with
  | O => diverge
  | S fuel' =>
      _checkpoint_tick stage callback_func proc ;;
      stop <- done_wait ;;
      if stop then ret tt
      else _checkpoint_run fuel' stage callback_func proc
  end.

(** The context manager, applied to the body of the [with] statement.  The
    two threads are put in one order: the monitor's iterations are placed
    where the thread is started, before the foreground collects the return
    code, and its [done.wait] is answered by the oracle.  What is proved
    below speaks of single ticks, of the loop on its own, and of what the
    foreground reads once the thread is joined; none of it depends on how
    the events of the two threads are interleaved. *)
Definition checkpoint_monitor {A} (fuel : nat) (stage : Stage)
           (callback_func : option callable) (proc : nat) (body : M A)
  : M A :=
  match callback_func with
  | None => body
  | Some f =>
      logger_debug "Monitoring checkpoint stage" ;;
      try_finally
        (emit EvThreadStart ;;
         thread_run (_checkpoint_run fuel stage f proc) ;;
         body)
        (emit EvDoneSet ;; emit EvThreadJoin)
  end.

(** Lines 106-110 of [_run]: the return code decides first, the [killed]
    event second. *)
Definition _run_outcome (c : string) : M unit :=
  q <- gets p ;;
  let retcode := match q with
                 | None => None
                 | Some pr => returncode pr
                 end in
  if match retcode with Some 0 => false | _ => true end then
    k <- gets killed ;;
    if k then raise (CheckpointKilledError c retcode)
    else raise (StageCmdFailedError c retcode)
  else ret tt.

Definition _run (fuel : nat) (stage : Stage) (executable : option string)
           (c : string) (checkpoint_func : option callable) (kwargs : Kwargs)
  : M unit :=
  let main_thread := in_main_thread E in
  let exec_cmd := _make_cmd executable c in
  set_old_handler HandlerNone ;;
  set_p None ;;
  try_finally
    (pr <- subprocess_Popen exec_cmd kwargs ;;
     set_p (Some pr) ;;
     when main_thread
          (old <- signal_signal SIG_IGN ;; set_old_handler old) ;;
     set_killed false ;;
     checkpoint_monitor fuel stage checkpoint_func (pid pr) proc_communicate)
    (old <- gets old_handler ;;
     if handler_truthy old then signal_signal old ;; ret tt else ret tt) ;;
  _run_outcome c.

(** The [for cmd in commands] loop of [cmd_run]. *)
Fixpoint cmd_run_loop (fuel : nat) (stage : Stage) (dry : bool)
         (checkpoint_func : option callable) (executable : option string)
         (kwargs : Kwargs) (commands : list string) : M unit :=
  match commands with
  | [] => ret tt
  | c :: rest =>
      display_command c ;;
      (if dry then ret tt
       else _run fuel stage executable c checkpoint_func kwargs) ;;
      cmd_run_loop fuel stage dry checkpoint_func executable kwargs rest
  end.

Definition cmd_run (fuel : nat) (stage : Stage) (dry : bool)
           (checkpoint_func : option callable) : M unit :=
  logger_info ("Running " ++ (if is_callback stage then "callback " else "")
               ++ "stage '" ++ addressing stage ++ "':") ;;
  commands <- lift (_enforce_cmd_list (cmd stage)) ;;
  let kwargs := prepare_kwargs stage checkpoint_func in
  let executable := get_executable (os_name E) (getenv_SHELL E) in
  when (negb dry) (warn_if_fish executable) ;;
  cmd_run_loop fuel stage dry checkpoint_func executable kwargs commands.

(** [stage.repo.stage_cache.restore(stage, **kwargs)] *)
Definition stage_cache_restore : M unit :=
  external EvRestore (restore_raises E).

Definition is_some {A} (o : option A) : bool :=
  match o with Some _ => true | None => false end.

Definition run_stage (fuel : nat) (stage : Stage) (dry force : bool)
           (checkpoint_func : option callable) : M unit :=
  returned <-
    (if negb (dry || force || is_some checkpoint_func) then
       try_except
         (stage_cache_restore ;; ret true)
         isinstance_RunCacheNotFoundError
         (fun _ => ret false)
     else ret false) ;;
  if returned then ret tt
  else
    let run := if dry then cmd_run fuel stage dry checkpoint_func
               else unlocked_repo (cmd_run fuel stage dry checkpoint_func) in
    run.

End Run.

(** ** Reading a history *)

(** The events a call has added: those of [w'] after the history of [w]. *)
Definition events_since (w w' : World) : list event :=
  skipn (length (trace w)) (trace w').

(** [w] with the events [l] appended to its history. *)
Definition logged (l : list event) (w : World) : World :=
  {| trace := trace w ++ l; sigint := sigint w; marker := marker w;
     p := p w; old_handler := old_handler w; killed := killed w |}.

Definition spawned (l : list event) : list exec_cmd :=
  flat_map (fun e => match e with EvPopen c _ => [c] | _ => [] end) l.

Definition exit_codes (l : list event) : list Z :=
  flat_map (fun e => match e with EvExit _ code => [code] | _ => [] end) l.

Definition is_restore (e : event) : bool :=
  match e with EvRestore => true | _ => false end.
Definition is_popen (e : event) : bool :=
  match e with EvPopen _ _ => true | _ => false end.
Definition is_thread_start (e : event) : bool :=
  match e with EvThreadStart => true | _ => false end.
Definition is_remove (e : event) : bool :=
  match e with EvRemove _ => true | _ => false end.
Definition is_signal (e : event) : bool :=
  match e with EvSignal _ => true | _ => false end.

(** The events the monitor thread may add; those of the foreground are
    excluded. *)
Definition monitor_event (e : event) : bool :=
  match e with
  | EvPopen _ _ | EvSignal _ | EvRestore | EvDisplay _ | EvLogInfo _
  | EvWarnFish | EvThreadStart | EvThreadJoin | EvDoneSet => false
  | _ => true
  end.

(** The return code stored in the current [Popen] object, if any. *)
Definition status (w : World) : option Z :=
  match p w with
  | Some pr => returncode pr
  | None => None
  end.

Definition current_pid (w : World) : option nat := option_map pid (p w).

(** The outcome lines 106-110 compute from a collected return code and the
    [killed] event. *)
Definition outcome_of (c : string) (code : Z) (was_killed : bool)
  : outcome unit :=
  if Z.eqb code 0 then Ok tt
  else if was_killed then Raise (CheckpointKilledError c (Some code))
       else Raise (StageCmdFailedError c (Some code)).

(** The outcome as the specification words it: the [killed] flag first. *)
Definition outcome_as_specified (c : string) (code : Z) (was_killed : bool)
  : outcome unit :=
  if was_killed then Raise (CheckpointKilledError c (Some code))
  else if Z.eqb code 0 then Ok tt
       else Raise (StageCmdFailedError c (Some code)).

(** The extra flags as the specification words them: by the basename as it
    is. *)
Definition flags_as_specified (exe : string) : list string :=
  if String.eqb (PyStr.basename exe) "zsh" then ["--no-rcs"]
  else if String.eqb (PyStr.basename exe) "bash" then ["--noprofile"; "--norc"]
  else [].

(** A launch, or the collection of an exit status. *)
Definition is_process_event (e : event) : bool :=
  match e with
  | EvPopen _ _ | EvExit _ _ => true
  | _ => false
  end.

(** The shape of a run of a command list without checkpoints, after a
    history [t]: the events it adds and its result.  Each command in turn
    is displayed and launched, and when the launch has succeeded the exit
    status of the child is collected, as the host gives it; between and
    after the two there is no other launch and no other exit status.  The
    run goes on to the next command after an exit status of 0, ends with
    StageCmdFailedError at any other status, and ends with what the launch
    has raised when it has raised. *)
Inductive ran_in_order (E : Oracle) (exe : option string) (kw : Kwargs)
  : list event -> list string -> list event -> outcome unit -> Prop :=
| rio_done t :
    ran_in_order E exe kw t [] [] (Ok tt)
| rio_next t c rest n mid post l r :
    existsb is_process_event (mid ++ post) = false ->
    popen_result E (_make_cmd exe c)
                 (t ++ [EvDisplay c; EvPopen (_make_cmd exe c) kw]) = inr n ->
    exit_code E (t ++ EvDisplay c :: EvPopen (_make_cmd exe c) kw :: mid)
    = 0 ->
    ran_in_order E exe kw
                 (t ++ EvDisplay c :: EvPopen (_make_cmd exe c) kw
                    :: mid ++ EvExit n 0 :: post)
                 rest l r ->
    ran_in_order E exe kw t (c :: rest)
                 (EvDisplay c :: EvPopen (_make_cmd exe c) kw
                    :: mid ++ EvExit n 0 :: post ++ l)
                 r
| rio_failed t c rest n code mid post :
    existsb is_process_event (mid ++ post) = false ->
    popen_result E (_make_cmd exe c)
                 (t ++ [EvDisplay c; EvPopen (_make_cmd exe c) kw]) = inr n ->
    exit_code E (t ++ EvDisplay c :: EvPopen (_make_cmd exe c) kw :: mid)
    = code ->
    code <> 0 ->
    ran_in_order E exe kw t (c :: rest)
                 (EvDisplay c :: EvPopen (_make_cmd exe c) kw
                    :: mid ++ EvExit n code :: post)
                 (Raise (StageCmdFailedError c (Some code)))
| rio_not_launched t c rest e :
    popen_result E (_make_cmd exe c)
                 (t ++ [EvDisplay c; EvPopen (_make_cmd exe c) kw]) = inl e ->
    ran_in_order E exe kw t (c :: rest)
                 [EvDisplay c; EvPopen (_make_cmd exe c) kw]
                 (Raise e).

(** The exception [_kill] raises after a history [t], if any: that of
    [proc.terminate()], or on Windows that of the taskkill call. *)
Definition kill_raises (E : Oracle) (t : list event) : option pyexn :=
  if String.eqb (os_name E) "nt" then taskkill_raises E t
  else terminate_raises E t.

(** What a [_kill] that returns adds to a history [t] when the [Popen]
    object is [q]. *)
Definition kill_events (E : Oracle) (proc : nat) (q : option Popen)
           (t : list event) : list event :=
  if String.eqb (os_name E) "nt" then
    [EvSubprocessCall ["taskkill"; "/F"; "/T"; "/PID"; PyStr.str_of_nat proc]]
  else
    EvTerminate proc ::
    match q with
    | Some pr =>
        match returncode pr with
        | None => [EvExit (pid pr) (exit_code E (t ++ [EvTerminate proc]))]
        | Some _ => []
        end
    | None => []
    end.

(** What one call of [_run_callback] does after a history [t]: the exception
    it raises, if any, and the events it adds. *)
Definition callback_attempt (E : Oracle) (f : callable) (t : list event)
  : option pyexn * list event :=
  let t1 := t ++ [EvLockAcquire; EvSave] in
  match save_raises E t1 with
  | Some e => (Some e, [EvLockAcquire; EvSave; EvLockRelease])
  | None =>
      match commit_raises E (t1 ++ [EvCommit]) with
      | Some e => (Some e, [EvLockAcquire; EvSave; EvCommit; EvLockRelease])
      | None =>
          let evs := [EvLockAcquire; EvSave; EvCommit;
                      EvLogDebug "Running checkpoint callback for stage";
                      EvCall f] in
          (call_raises E f (t ++ evs), evs ++ [EvLockRelease])
      end
  end.

(** What the [try] statement of a tick that has found the marker does after
    a history [t], the poll included, when the [Popen] object is [q]: the
    exception pending when it ends, the events it has added, and whether
    it has set [killed].  The [finally] block comes after it. *)
Record attempt_result := {
  pending : option pyexn;
  added : list event;
  flagged : bool
}.

Definition tick_body (E : Oracle) (f : callable) (proc : nat)
           (q : option Popen) (t : list event) : attempt_result :=
  let att := callback_attempt E f t in
  let failure :=
    EvLogException "Error generating checkpoint, stage will be aborted" in
  match fst att with
  | None => {| pending := None; added := snd att; flagged := false |}
  | Some e =>
      if isinstance_Exception e then
        let t2 := t ++ snd att ++ [failure] in
        match kill_raises E t2 with
        | Some ek =>
            {| pending := Some ek; added := snd att ++ [failure];
               flagged := false |}
        | None =>
            {| pending := None;
               added := snd att ++ failure :: kill_events E proc q t2
                          ++ [EvKilledSet];
               flagged := true |}
        end
      else {| pending := Some e; added := snd att; flagged := false |}
  end.

(** The SIGINT traffic of one [_run] whose launch succeeded, and the
    disposition it leaves, from the handler [h] found on entry. *)
Definition signal_events_of_run (main : bool) (h : sighandler) : list event :=
  if main then
    EvSignal SIG_IGN :: (if handler_truthy h then [EvSignal h] else [])
  else [].

Definition sigint_after_run (main : bool) (h : sighandler) : sighandler :=
  if main then (if handler_truthy h then h else SIG_IGN) else h.

Definition running_message (stage : Stage) : string :=
  "Running " ++ (if is_callback stage then "callback " else "")
  ++ "stage '" ++ addressing stage ++ "':".

(** The executable [cmd_run] resolves on the host [E]. *)
Definition resolved_executable (E : Oracle) : option string :=
  get_executable (os_name E) (getenv_SHELL E).

(** The command list of a stage whose [cmd] is truthy. *)
Definition commands_of (c : stage_cmd) : list string :=
  match c with
  | CmdList l => l
  | CmdStr s => [s]
  | CmdNone => []
  end.

Definition not_restore (e : event) : bool := negb (is_restore e).

(** ** Concrete stages, worlds and oracles *)

Module Sample.

Definition count (f : event -> bool) (t : list event) : nat :=
  length (filter f t).

Definition is_poll (e : event) : bool :=
  match e with EvPoll _ => true | _ => false end.

(** A POSIX host in the main thread.  The run cache answers [restore];
    every launch succeeds with pid 4242; the child exits with [code]; it
    writes the marker before the second poll, and nobody but the monitor
    removes it; the checkpoint callback behaves as [call]; the child can be
    signalled; the stop request arrives at the third poll. *)
Definition oracle (shell : option string) (main : bool)
           (restore : option pyexn) (code : Z) (call : option pyexn)
  : Oracle :=
  {| os_name := "posix";
     getenv_SHELL := shell;
     realpath := fun s => s;
     path_join := fun a b => (a ++ "/" ++ b)%string;
     fix_env := [("PATH", "/usr/bin")];
     DVC_CHECKPOINT := "DVC_CHECKPOINT";
     DVC_ROOT := "DVC_ROOT";
     in_main_thread := main;
     restore_raises := fun _ => restore;
     popen_result := fun _ _ => inr 4242%nat;
     exit_code := fun _ => code;
     marker_created := fun t => Nat.eqb (count is_poll t) 1;
     marker_gone := fun _ => false;
     save_raises := fun _ => None;
     commit_raises := fun _ => None;
     call_raises := fun _ _ => call;
     terminate_raises := fun _ => None;
     taskkill_raises := fun _ => None;
     stop_requested := fun t => Nat.leb 3 (count is_poll t) |}.

Definition stage (c : stage_cmd) : Stage :=
  {| cmd := c; wdir := "."; is_callback := false; addressing := "train";
     root_dir := "/repo"; tmp_dir := "/repo/.dvc/tmp" |}.

(** A fresh interpreter state with SIGINT handler [h]. *)
Definition world (h : sighandler) : World :=
  {| trace := []; sigint := h; marker := false; p := None;
     old_handler := HandlerNone; killed := false |}.

Definition kwargs : Kwargs :=
  {| kw_cwd := "."; kw_env := [("PATH", "/usr/bin")]; kw_close_fds := true;
     kw_shell := false |}.

(** The handler Python installs at start-up, [signal.default_int_handler]. *)
Definition default_int_handler : sighandler := PyHandler 0.

(** A host where the checkpoint callback fails and the child exits with
    [code]. *)
Definition failing_callback (code : Z) : Oracle :=
  oracle (Some "/bin/sh") true None code
         (Some (OtherException "commit failed")).

(** A host where the run cache answers [restore] and the child exits with
    [code]. *)
Definition plain (restore : option pyexn) (code : Z) : Oracle :=
  oracle (Some "/bin/sh") true restore code None.

(** The monitor's view in the middle of a run: child 4242 is running and has
    written the marker. *)
Definition world_with_marker : World :=
  {| trace := [EvThreadStart]; sigint := SIG_IGN; marker := true;
     p := Some {| pid := 4242; returncode := None |};
     old_handler := default_int_handler; killed := false |}.

Definition train : Stage := stage (CmdStr "python train.py").

Definition two_commands : Stage := stage (CmdList ["exit 3"; "echo B"]).

End Sample.

(** ** More ways to read a history and a dictionary *)

(** [d.get(k)] on a dictionary kept as an association list. *)
Fixpoint dict_get (k : string) (d : list (string * string)) : option string :=
  match d with
  | [] => None
  | (k', v) :: r => if String.eqb k k' then Some v else dict_get k r
  end.

(** How many events of a history satisfy [f]. *)
Definition count (f : event -> bool) (l : list event) : nat :=
  length (filter f l).

Definition is_warn_fish (e : event) : bool :=
  match e with EvWarnFish => true | _ => false end.
Definition is_display (e : event) : bool :=
  match e with EvDisplay _ => true | _ => false end.
Definition is_found (e : event) : bool :=
  match e with EvPoll true => true | _ => false end.
Definition is_poll (e : event) : bool :=
  match e with EvPoll _ => true | _ => false end.
Definition is_save (e : event) : bool :=
  match e with EvSave => true | _ => false end.
Definition is_commit (e : event) : bool :=
  match e with EvCommit => true | _ => false end.
Definition is_call (e : event) : bool :=
  match e with EvCall _ => true | _ => false end.
Definition is_done_wait (e : event) : bool :=
  match e with EvDoneWait _ => true | _ => false end.
Definition is_killed_set (e : event) : bool :=
  match e with EvKilledSet => true | _ => false end.

(** A call that kills the child: [proc.terminate()] or the taskkill
    command. *)
Definition is_kill_call (e : event) : bool :=
  match e with
  | EvTerminate _ | EvSubprocessCall _ => true
  | _ => false
  end.

(** The exceptions that may leave the monitor loop: one that the callback
    attempt has raised and that is not an [Exception], one that [_kill] has
    raised, and the FileNotFoundError of an [os.remove] that has found the
    marker gone. *)
Definition leaves_monitor (E : Oracle) (stage : Stage) (f : callable)
           (e : pyexn) : Prop :=
  (isinstance_Exception e = false
   /\ exists t, fst (callback_attempt E f t) = Some e)
  \/ (exists t, kill_raises E t = Some e)
  \/ (e = FileNotFoundError (signal_path E stage)
      /\ exists t, marker_gone E t = true).

(** The two steps of [cmd_run] on one command that a user sees: the display
    of the command and the launch of its child. *)
Definition is_launch_step (e : event) : bool := is_display e || is_popen e.

(** The steps of [cmd_run] on one command: the display of the command, the
    launch of its child, and the collection of its exit status. *)
Definition is_run_step (e : event) : bool :=
  is_display e || is_process_event e.

(** The steps of a run of a command list that is not dry, and its result.
    Each command in turn is displayed and launched, and the exit status of
    its child is collected; the run goes on to the next command after an
    exit status of 0, and ends at any other status with StageCmdFailedError
    or CheckpointKilledError, which carries the command and the status, or
    at a launch that has raised, with what it has raised.  A run whose
    monitor has not come to an end has no result. *)
Inductive stepped (E : Oracle) (exe : option string) (kw : Kwargs)
  : list string -> list event -> outcome unit -> Prop :=
| st_done :
    stepped E exe kw [] [] (Ok tt)
| st_next c rest n l r :
    stepped E exe kw rest l r ->
    stepped E exe kw (c :: rest)
            (EvDisplay c :: EvPopen (_make_cmd exe c) kw :: EvExit n 0 :: l)
            r
| st_failed c rest n code e :
    code <> 0 ->
    e = StageCmdFailedError c (Some code)
    \/ e = CheckpointKilledError c (Some code) ->
    stepped E exe kw (c :: rest)
            [EvDisplay c; EvPopen (_make_cmd exe c) kw; EvExit n code]
            (Raise e)
| st_not_launched c rest t e :
    popen_result E (_make_cmd exe c) t = inl e ->
    stepped E exe kw (c :: rest)
            [EvDisplay c; EvPopen (_make_cmd exe c) kw]
            (Raise e)
| st_unfinished c rest tail :
    stepped E exe kw (c :: rest)
            (EvDisplay c :: EvPopen (_make_cmd exe c) kw :: tail)
            Diverge.

(** The events the loop of [cmd_run] may add: all but those of [run_stage]
    and of the head of [cmd_run]. *)
Definition loop_event (e : event) : bool :=
  match e with
  | EvRestore | EvWarnFish | EvLogInfo _ => false
  | _ => true
  end.

(** The events one [_run] may add after its launch: those of the loop that
    are neither a display nor a launch. *)
Definition quiet_event (e : event) : bool :=
  loop_event e && negb (is_launch_step e).

(** The test of [warn_if_fish]. *)
Definition is_fish (E : Oracle) (executable : option string) : bool :=
  match executable with
  | Some exe => String.eqb (PyStr.basename (realpath E exe)) "fish"
  | None => false
  end.

(** The parts of [_run] by name: the [try] body after the launch, and the
    [finally] block. *)
Definition after_launch (E : Oracle) (fuel : nat) (stage : Stage)
           (checkpoint_func : option callable) (pr : Popen) : M unit :=
  (set_p (Some pr) ;;
   when (in_main_thread E)
        (old <- signal_signal SIG_IGN ;; set_old_handler old) ;;
   set_killed false ;;
   checkpoint_monitor E fuel stage checkpoint_func (pid pr)
                      (proc_communicate E))%py.

Definition restore_handler : M unit :=
  (old <- gets old_handler ;;
   if handler_truthy old then signal_signal old ;; ret tt else ret tt)%py.

(** [w] as [_run] sets it up before the [try]. *)
Definition run_entry (w : World) : World :=
  {| trace := trace w; sigint := sigint w; marker := marker w; p := None;
     old_handler := HandlerNone; killed := killed w |}.

(** ** More concrete hosts *)

Module Scenario.

(** A host whose shell is fish and where the child exits with 0. *)
Definition fish : Oracle :=
  Sample.oracle (Some "/usr/bin/fish") true (Some RunCacheNotFoundError) 0
                None.

(** A host where no process can be launched. *)
Definition no_launch : Oracle :=
  {| os_name := "posix";
     getenv_SHELL := Some "/bin/sh";
     realpath := fun s => s;
     path_join := fun a b => (a ++ "/" ++ b)%string;
     fix_env := [("PATH", "/usr/bin")];
     DVC_CHECKPOINT := "DVC_CHECKPOINT";
     DVC_ROOT := "DVC_ROOT";
     in_main_thread := true;
     restore_raises := fun _ => Some RunCacheNotFoundError;
     popen_result := fun _ _ => inl (FileNotFoundError "/bin/sh");
     exit_code := fun _ => 0;
     marker_created := fun _ => false;
     marker_gone := fun _ => false;
     save_raises := fun _ => None;
     commit_raises := fun _ => None;
     call_raises := fun _ _ => None;
     terminate_raises := fun _ => None;
     taskkill_raises := fun _ => None;
     stop_requested := fun _ => true |}.

(** A host where every checkpoint succeeds; the child writes the marker
    before the second poll and the stop request comes at the third. *)
Definition checkpoints_succeed : Oracle :=
  Sample.oracle (Some "/bin/sh") true None 0 None.

Definition start : World := Sample.world Sample.default_int_handler.

(** A POSIX host as [Sample.oracle] has it for the monitor: the child
    writes the marker before the second poll and the stop request comes at
    the third.  The checkpoint callback behaves as [call], the signalling
    of the child as [terminate], and the marker is gone at its removal
    when [gone] says so. *)
Definition monitored (call terminate : option pyexn) (gone : bool)
  : Oracle :=
  {| os_name := "posix";
     getenv_SHELL := Some "/bin/sh";
     realpath := fun s => s;
     path_join := fun a b => (a ++ "/" ++ b)%string;
     fix_env := [("PATH", "/usr/bin")];
     DVC_CHECKPOINT := "DVC_CHECKPOINT";
     DVC_ROOT := "DVC_ROOT";
     in_main_thread := true;
     restore_raises := fun _ => None;
     popen_result := fun _ _ => inr 4242%nat;
     exit_code := fun _ => 0;
     marker_created := fun t => Nat.eqb (Sample.count Sample.is_poll t) 1;
     marker_gone := fun _ => gone;
     save_raises := fun _ => None;
     commit_raises := fun _ => None;
     call_raises := fun _ _ => call;
     terminate_raises := fun _ => terminate;
     taskkill_raises := fun _ => None;
     stop_requested := fun t => Nat.leb 3 (Sample.count Sample.is_poll t) |}.

(** The checkpoint callback calls [sys.exit]. *)
Definition callback_exits : Oracle :=
  monitored (Some (SystemExiting "SystemExit")) None false.

(** The checkpoint callback fails, and the child cannot be signalled. *)
Definition kill_fails : Oracle :=
  monitored (Some (OtherException "commit failed"))
            (Some (OtherException "PermissionError")) false.

(** The checkpoint callback returns, having removed the marker itself. *)
Definition marker_vanishes : Oracle := monitored None None true.

End Scenario.

(** ** Frame relations

    What a computation leaves alone is stated as a relation between the
    world before and the world after, whatever the result. *)

Definition preserves {A} (R : World -> World -> Prop) (m : M A) : Prop :=
  forall w r w', m w = (r, w') -> R w w'.

Class Frame (R : World -> World -> Prop) : Prop := {
  frame_refl : forall w, R w w;
  frame_trans : forall a b c, R a b -> R b c -> R a c
}.

(** Only events accepted by [allowed] are added. *)
Definition only (allowed : event -> bool) : World -> World -> Prop :=
  fun w w' => exists l, trace w' = trace w ++ l /\ forallb allowed l = true.

(** The component [f] of the world is unchanged. *)
Definition keeps {X} (f : World -> X) : World -> World -> Prop :=
  fun w w' => f w' = f w.

Definition both (R1 R2 : World -> World -> Prop) : World -> World -> Prop :=
  fun w w' => R1 w w' /\ R2 w w'.

(** What the monitor thread leaves alone: the SIGINT disposition, the saved
    handler, the identity of the child; and it adds no foreground event. *)
Definition monitor_frame : World -> World -> Prop :=
  both (keeps sigint)
       (both (keeps old_handler)
             (both (keeps current_pid) (only monitor_event))).

(** What is done for the child [n] once it has been launched: it stays the
    child of the run, an exit status that has been collected is kept, and
    the one step added to the history is the collection of its exit
    status, when that has not been collected before. *)
Definition collects (n : nat) : World -> World -> Prop :=
  fun w w' =>
    current_pid w = Some n ->
    current_pid w' = Some n
    /\ (forall code, status w = Some code -> status w' = Some code)
    /\ exists l,
         trace w' = trace w ++ l
         /\ filter is_run_step l
            = match status w, status w' with
              | None, Some code => [EvExit n code]
              | _, _ => []
              end.

(** * Verification *)

Unset Implicit Arguments.

(** ** The monad and the frame rules *)

Lemma events_since_logged w l : events_since w (logged l w) = l.
Proof.
  unfold events_since, logged; simpl.
  rewrite skipn_app, Nat.sub_diag, skipn_all; reflexivity.
Qed.

Lemma events_since_app w w' l :
  trace w' = trace w ++ l -> events_since w w' = l.
Proof.
  intros H. unfold events_since. rewrite H.
  rewrite skipn_app, Nat.sub_diag, skipn_all; reflexivity.
Qed.

Lemma spawned_app l1 l2 : spawned (l1 ++ l2) = spawned l1 ++ spawned l2.
Proof. unfold spawned. apply flat_map_app. Qed.

Lemma exit_codes_app l1 l2 :
  exit_codes (l1 ++ l2) = exit_codes l1 ++ exit_codes l2.
Proof. unfold exit_codes. apply flat_map_app. Qed.

#[global] Instance only_frame allowed : Frame (only allowed).
Proof.
  split.
  - intros w. exists []. rewrite app_nil_r. auto.
  - intros a b c [l1 [H1 F1]] [l2 [H2 F2]]. exists (l1 ++ l2). split.
    + rewrite H2, H1, app_assoc. reflexivity.
    + rewrite forallb_app, F1, F2. reflexivity.
Qed.

#[global] Instance keeps_frame {X} (f : World -> X) : Frame (keeps f).
Proof.
  split; unfold keeps.
  - reflexivity.
  - intros a b c H1 H2. congruence.
Qed.

#[global] Instance both_frame R1 R2 `{Frame R1} `{Frame R2} :
  Frame (both R1 R2).
Proof.
  split; unfold both.
  - intros w. split; apply frame_refl.
  - intros a b c [A1 A2] [B1 B2]. split; eapply frame_trans; eauto.
Qed.

#[global] Instance monitor_frame_frame : Frame monitor_frame.
Proof. unfold monitor_frame. typeclasses eauto. Qed.

Section FrameRules.

Variable R : World -> World -> Prop.
Context `{Frame R}.

Lemma preserves_leaf A (m : M A) :
  (forall w, R w (snd (m w))) -> preserves R m.
Proof. intros L w r w' Hm. specialize (L w). rewrite Hm in L. exact L. Qed.

Lemma preserves_ret A (a : A) : preserves R (ret a).
Proof. intros w r w' Hm. inversion Hm; subst. apply frame_refl. Qed.

Lemma preserves_raise A e : preserves R (@raise A e).
Proof. intros w r w' Hm. inversion Hm; subst. apply frame_refl. Qed.

Lemma preserves_diverge A : preserves R (@diverge A).
Proof. intros w r w' Hm. inversion Hm; subst. apply frame_refl. Qed.

Lemma preserves_lift A (o : outcome A) : preserves R (lift o).
Proof. intros w r w' Hm. inversion Hm; subst. apply frame_refl. Qed.

Lemma preserves_gets A (f : World -> A) : preserves R (gets f).
Proof. intros w r w' Hm. inversion Hm; subst. apply frame_refl. Qed.

Lemma preserves_bind A B (m : M A) (k : A -> M B) :
  preserves R m -> (forall a, preserves R (k a)) -> preserves R (bind m k).
Proof.
  intros Pm Pk w r w' Hb. unfold bind in Hb.
  destruct (m w) as [[a | e |] w1] eqn:Hm.
  - eapply frame_trans; [eapply Pm; eauto | eapply Pk; eauto].
  - inversion Hb; subst. eapply Pm; eauto.
  - inversion Hb; subst. eapply Pm; eauto.
Qed.

Lemma preserves_try_except A (m : M A) catches h :
  preserves R m -> (forall e, preserves R (h e)) ->
  preserves R (try_except m catches h).
Proof.
  intros Pm Ph w r w' Ht. unfold try_except in Ht.
  destruct (m w) as [[a | e |] w1] eqn:Hm.
  - inversion Ht; subst. eapply Pm; eauto.
  - destruct (catches e).
    + eapply frame_trans; [eapply Pm; eauto | eapply Ph; eauto].
    + inversion Ht; subst. eapply Pm; eauto.
  - inversion Ht; subst. eapply Pm; eauto.
Qed.

Lemma preserves_try_finally A (m : M A) f :
  preserves R m -> preserves R f -> preserves R (try_finally m f).
Proof.
  intros Pm Pf w r w' Ht. unfold try_finally in Ht.
  destruct (m w) as [[a | e |] w1] eqn:Hm.
  - destruct (f w1) as [[[] | e' |] w2] eqn:Hf; inversion Ht; subst;
      (eapply frame_trans; [eapply Pm; eauto | eapply Pf; eauto]).
  - destruct (f w1) as [[[] | e' |] w2] eqn:Hf; inversion Ht; subst;
      (eapply frame_trans; [eapply Pm; eauto | eapply Pf; eauto]).
  - inversion Ht; subst. eapply Pm; eauto.
Qed.

Lemma preserves_when b m : preserves R m -> preserves R (when b m).
Proof. intros Pm. destruct b; simpl; [exact Pm | apply preserves_ret]. Qed.

Lemma preserves_thread_run target :
  preserves R target ->
  (forall e, preserves R (emit (EvThreadDied e))) ->
  preserves R (thread_run target).
Proof.
  intros Pt Pe w r w' Ht. unfold thread_run in Ht.
  destruct (target w) as [[a | e |] w1] eqn:Hm.
  - inversion Ht; subst. eapply Pt; eauto.
  - eapply frame_trans; [eapply Pt; eauto | eapply Pe; eauto].
  - inversion Ht; subst. eapply Pt; eauto.
Qed.

End FrameRules.

Lemma preserves_both A (R1 R2 : World -> World -> Prop) (m : M A) :
  preserves R1 m -> preserves R2 m -> preserves (both R1 R2) m.
Proof. intros P1 P2 w r w' Hm. split; [eapply P1 | eapply P2]; eauto. Qed.

Lemma only_emit allowed e :
  allowed e = true -> preserves (only allowed) (emit e).
Proof.
  intros Ha. apply preserves_leaf.
  intros w. exists [e]. simpl. rewrite Ha. auto.
Qed.

Lemma only_silent allowed A (m : M A) :
  (forall w, trace (snd (m w)) = trace w) -> preserves (only allowed) m.
Proof.
  intros Hs. apply preserves_leaf.
  intros w. exists []. rewrite app_nil_r. auto.
Qed.

Lemma keeps_leaf X (f : World -> X) A (m : M A) :
  (forall w, f (snd (m w)) = f w) -> preserves (keeps f) m.
Proof. intros Hs. apply preserves_leaf; exact Hs. Qed.

Ltac frame_rules :=
  repeat match goal with
    | |- preserves _ (ret _) => refine (@preserves_ret _ _ _ _)
    | |- preserves _ (raise _) => refine (@preserves_raise _ _ _ _)
    | |- preserves _ diverge => refine (@preserves_diverge _ _ _)
    | |- preserves _ (lift _) => refine (@preserves_lift _ _ _ _)
    | |- preserves _ (gets _) => refine (@preserves_gets _ _ _ _)
    | |- preserves _ (bind _ _) =>
        refine (@preserves_bind _ _ _ _ _ _ _ _); [| intro]
    | |- preserves _ (try_finally _ _) =>
        refine (@preserves_try_finally _ _ _ _ _ _ _)
    | |- preserves _ (try_except _ _ _) =>
        refine (@preserves_try_except _ _ _ _ _ _ _ _); [| intro]
    | |- preserves _ (when _ _) => refine (@preserves_when _ _ _ _ _)
    | |- preserves _ (if ?b then _ else _) => destruct b
    | |- preserves _ (match ?x with _ => _ end) => destruct x
    end.

Ltac frame_leaf :=
  repeat apply preserves_both;
  first [ apply keeps_leaf; intro; reflexivity
        | apply only_emit; reflexivity
        | apply only_silent; intro; reflexivity ].

(** ** The monitor thread *)

Section Monitor.

Variable E : Oracle.

Lemma monitor_emit e :
  monitor_event e = true -> preserves monitor_frame (emit e).
Proof.
  intros He. unfold monitor_frame. repeat apply preserves_both;
    try (apply keeps_leaf; intro; reflexivity).
  apply only_emit; exact He.
Qed.

Lemma monitor_set_marker b : preserves monitor_frame (set_marker b).
Proof. unfold monitor_frame. frame_leaf. Qed.

Lemma monitor_set_killed b : preserves monitor_frame (set_killed b).
Proof. unfold monitor_frame. frame_leaf. Qed.

Lemma monitor_collect_status : preserves monitor_frame (collect_status E).
Proof.
  intros w r w' Hc. unfold collect_status, bind, gets in Hc.
  destruct (p w) as [pr |] eqn:Hp.
  - destruct (returncode pr) eqn:Hrc.
    + inversion Hc; subst. apply frame_refl.
    + simpl in Hc. inversion Hc; subst; clear Hc.
      unfold monitor_frame, both, keeps, only, current_pid; simpl.
      rewrite Hp. simpl. repeat split.
      eexists; split; [reflexivity | reflexivity].
  - inversion Hc; subst. apply frame_refl.
Qed.

Lemma monitor_external ev raises :
  monitor_event ev = true -> preserves monitor_frame (external ev raises).
Proof.
  intros He. unfold external. frame_rules. apply monitor_emit; exact He.
Qed.

Lemma monitor_kill proc : preserves monitor_frame (_kill E proc).
Proof.
  unfold _kill, _kill_nt, subprocess_call, proc_terminate, proc_wait, acting.
  frame_rules;
    first [ apply monitor_emit; reflexivity | apply monitor_collect_status ].
Qed.

Lemma monitor_run_callback stage f :
  preserves monitor_frame (_run_callback E stage f).
Proof.
  unfold _run_callback, relock_repo, logger_debug. frame_rules;
    first [ apply monitor_emit; reflexivity
          | apply monitor_external; reflexivity ].
Qed.

Lemma monitor_tick stage f proc :
  preserves monitor_frame (_checkpoint_tick E stage f proc).
Proof.
  unfold _checkpoint_tick, os_path_exists, os_remove, logger_exception,
    logger_debug.
  frame_rules;
    first [ apply monitor_emit; reflexivity
          | apply monitor_set_marker
          | apply monitor_set_killed
          | apply monitor_kill
          | apply monitor_run_callback ].
Qed.

Lemma monitor_checkpoint_run fuel stage f proc :
  preserves monitor_frame (_checkpoint_run E fuel stage f proc).
Proof.
  induction fuel as [| fuel IH]; simpl.
  - refine (@preserves_diverge _ _ _).
  - refine (@preserves_bind _ _ _ _ _ _ _ _); [apply monitor_tick | intros _].
    unfold done_wait. frame_rules; try (apply monitor_emit; reflexivity).
    exact IH.
Qed.

End Monitor.

(** ** Histories only grow, and only [run_stage] asks the cache *)

Lemma logged_nil w : logged [] w = w.
Proof. destruct w; unfold logged; simpl. rewrite app_nil_r. reflexivity. Qed.

Lemma logged_logged l1 l2 w : logged l2 (logged l1 w) = logged (l1 ++ l2) w.
Proof. unfold logged; simpl. rewrite app_assoc. reflexivity. Qed.

Lemma emit_logged e w : emit e w = (Ok tt, logged [e] w).
Proof. reflexivity. Qed.

Lemma only_no_match allowed f w w' :
  (forall e, allowed e = true -> f e = false) ->
  only allowed w w' -> existsb f (events_since w w') = false.
Proof.
  intros Hf [l [Ht Hl]]. rewrite (events_since_app _ _ _ Ht).
  clear Ht. induction l as [| e l IH]; simpl in *; [reflexivity |].
  apply andb_true_iff in Hl. destruct Hl as [He Hl].
  rewrite (Hf _ He), (IH Hl). reflexivity.
Qed.

Section Histories.

Variable E : Oracle.
Variable allowed : event -> bool.
Hypothesis allowed_all_but_restore :
  forall e, is_restore e = false -> allowed e = true.

Ltac only_leaf :=
  first [ apply only_emit; apply allowed_all_but_restore; reflexivity
        | apply only_silent; intro; reflexivity ].

Lemma only_collect_status : preserves (only allowed) (collect_status E).
Proof. unfold collect_status. frame_rules; only_leaf. Qed.

Lemma only_checkpoint_tick stage f proc :
  preserves (only allowed) (_checkpoint_tick E stage f proc).
Proof.
  unfold _checkpoint_tick, os_path_exists, os_remove, logger_exception,
    logger_debug, _run_callback, relock_repo, external, _kill, _kill_nt,
    subprocess_call, proc_terminate, proc_wait, acting, logger_debug.
  frame_rules; first [ apply only_collect_status | only_leaf ].
Qed.

Lemma only_checkpoint_run fuel stage f proc :
  preserves (only allowed) (_checkpoint_run E fuel stage f proc).
Proof.
  induction fuel as [| fuel IH]; simpl.
  - refine (@preserves_diverge _ _ _).
  - refine (@preserves_bind _ _ _ _ _ _ _ _);
      [apply only_checkpoint_tick | intros _].
    unfold done_wait. frame_rules; try only_leaf. exact IH.
Qed.

Lemma only_run fuel stage exe c cf kw :
  preserves (only allowed) (_run E fuel stage exe c cf kw).
Proof.
  unfold _run, subprocess_Popen, signal_signal, checkpoint_monitor,
    proc_communicate, _run_outcome, logger_debug.
  frame_rules;
    first [ apply only_collect_status
          | refine (@preserves_thread_run _ _ _ _ _);
            [ apply only_checkpoint_run | intro; only_leaf ]
          | only_leaf ].
Qed.

Lemma only_cmd_run_loop fuel stage dry cf exe kw cs :
  preserves (only allowed) (cmd_run_loop E fuel stage dry cf exe kw cs).
Proof.
  induction cs as [| c cs IH]; simpl.
  - refine (@preserves_ret _ _ _ _).
  - unfold display_command. frame_rules;
      first [ apply only_run | exact IH | only_leaf ].
Qed.

Lemma only_cmd_run fuel stage dry cf :
  preserves (only allowed) (cmd_run E fuel stage dry cf).
Proof.
  unfold cmd_run, logger_info, warn_if_fish, when.
  frame_rules; first [ apply only_cmd_run_loop | only_leaf ].
Qed.

End Histories.

(** ** Command composition *)

Section Composition.

Lemma has_sep_app a b :
  PyStr.has_sep (a ++ b)%string = PyStr.has_sep a || PyStr.has_sep b.
Proof.
  induction a as [| c a IH]; simpl; [reflexivity |].
  rewrite IH, orb_assoc. reflexivity.
Qed.

(** [basename] gives the last component: it has no separator in it, and it
    is the name that was joined to a directory. *)
Lemma basename_no_sep p : PyStr.has_sep (PyStr.basename p) = false.
Proof.
  induction p as [| c r IH]; simpl; [reflexivity |].
  destruct (PyStr.has_sep r) eqn:Hr; [exact IH |].
  destruct (PyStr.is_sep c) eqn:Hc; [exact Hr |].
  simpl. rewrite Hc, Hr. reflexivity.
Qed.

Lemma basename_join dir name :
  PyStr.has_sep name = false ->
  PyStr.basename (dir ++ "/" ++ name)%string = name.
Proof.
  intros Hn. induction dir as [| c r IH]; simpl.
  - rewrite Hn. reflexivity.
  - rewrite has_sep_app. simpl. rewrite orb_true_r. exact IH.
Qed.

(** A zsh in any directory is started with --no-rcs, a bash with --noprofile
    --norc, and the command is the one argument after -c. *)
Lemma zsh_without_rcs dir c :
  _make_cmd (Some (dir ++ "/zsh")%string) c
  = Argv [(dir ++ "/zsh")%string; "--no-rcs"; "-c"; c].
Proof.
  unfold _make_cmd.
  change (dir ++ "/zsh")%string with (dir ++ "/" ++ "zsh")%string.
  rewrite (basename_join dir "zsh") by reflexivity. reflexivity.
Qed.

Lemma bash_without_profile dir c :
  _make_cmd (Some (dir ++ "/bash")%string) c
  = Argv [(dir ++ "/bash")%string; "--noprofile"; "--norc"; "-c"; c].
Proof.
  unfold _make_cmd.
  change (dir ++ "/bash")%string with (dir ++ "/" ++ "bash")%string.
  rewrite (basename_join dir "bash") by reflexivity. reflexivity.
Qed.

(** C8, as the code has it: off Windows the argument vector is the resolved
    shell (SHELL, or /bin/sh when SHELL is unset or empty), then the flags
    chosen by the lower-cased basename of that shell ("zsh": --no-rcs;
    "bash": --noprofile --norc; anything else: none), then -c and the
    command as one argument; on Windows no executable is resolved and the
    command string goes to Popen unchanged. *)
Theorem make_cmd_composition (os : string) (shell : option string)
        (c : string) :
  _make_cmd (get_executable os shell) c =
    if String.eqb os "nt" then ShellString c
    else
      let exe := match shell with
                 | Some s => if str_truthy s then s else "/bin/sh"
                 | None => "/bin/sh"
                 end in
      let name := PyStr.lower (PyStr.basename exe) in
      Argv (exe ::
            (if String.eqb name "zsh" then ["--no-rcs"]
             else if String.eqb name "bash" then ["--noprofile"; "--norc"]
             else [])
            ++ ["-c"; c]).
Proof.
  unfold get_executable, _make_cmd, opts_get.
  destruct (String.eqb os "nt"); simpl; reflexivity.
Qed.

(** C8, as the specification words it, fails for a shell whose basename is
    "ZSH": the basename is not "zsh", so no extra flag is specified, yet
    the code passes --no-rcs. *)
Lemma make_cmd_uppercase_shell :
  PyStr.basename "/bin/ZSH" <> "zsh"
  /\ flags_as_specified "/bin/ZSH" = []
  /\ _make_cmd (get_executable "posix" (Some "/bin/ZSH")) "echo hi"
     = Argv ["/bin/ZSH"; "--no-rcs"; "-c"; "echo hi"]
  /\ _make_cmd (get_executable "posix" (Some "/bin/ZSH")) "echo hi"
     <> Argv ("/bin/ZSH" :: flags_as_specified "/bin/ZSH" ++ ["-c"; "echo hi"]).
Proof.
  repeat split; try reflexivity; vm_compute; discriminate.
Qed.

(** On Windows [prepare_kwargs] asks Popen for the platform's shell. *)
Lemma prepare_kwargs_shell E stage cf :
  kw_shell (prepare_kwargs E stage cf) = String.eqb (os_name E) "nt".
Proof. reflexivity. Qed.

End Composition.

(** ** The run cache, dry runs and the command list *)

Section RunStage.

Variable E : Oracle.

Lemma run_stage_consult fuel stage w :
  run_stage E fuel stage false false None w =
    match restore_raises E (trace w ++ [EvRestore]) with
    | None => (Ok tt, logged [EvRestore] w)
    | Some e =>
        if isinstance_RunCacheNotFoundError e
        then unlocked_repo (cmd_run E fuel stage false None)
                           (logged [EvRestore] w)
        else (Raise e, logged [EvRestore] w)
    end.
Proof.
  unfold run_stage, stage_cache_restore, external, try_except, bind, gets.
  simpl. destruct (restore_raises E (trace w ++ [EvRestore])) as [e |];
    simpl; [| reflexivity].
  destruct (isinstance_RunCacheNotFoundError e); reflexivity.
Qed.

Lemma run_stage_skip fuel stage dry force cf w :
  dry || force || is_some cf = true ->
  run_stage E fuel stage dry force cf w =
    (if dry then cmd_run E fuel stage dry cf
     else unlocked_repo (cmd_run E fuel stage dry cf)) w.
Proof.
  intros H. unfold run_stage. rewrite H. simpl. unfold bind, ret. reflexivity.
Qed.

Lemma unlocked_repo_only allowed A (m : M A) :
  allowed EvLockRelease = true -> allowed EvLockAcquire = true ->
  preserves (only allowed) m -> preserves (only allowed) (unlocked_repo m).
Proof.
  intros H1 H2 Hm. unfold unlocked_repo. frame_rules;
    first [ apply only_emit; assumption | exact Hm ].
Qed.

Lemma run_stage_skip_only fuel stage dry force cf :
  dry || force || is_some cf = true ->
  preserves (only not_restore) (run_stage E fuel stage dry force cf).
Proof.
  intros H w r w' Hr. rewrite run_stage_skip in Hr by exact H.
  destruct dry.
  - eapply only_cmd_run; [| exact Hr]. intros e He. unfold not_restore.
    rewrite He. reflexivity.
  - eapply unlocked_repo_only; [reflexivity | reflexivity | | exact Hr].
    apply only_cmd_run. intros e He. unfold not_restore.
    rewrite He. reflexivity.
Qed.

(** C2: the run cache is asked exactly when the run is neither dry nor
    forced and has no checkpoint callback; on a hit [run_stage] returns at
    once, and the restore call is the only thing it has done: no command
    composed, no process launched, no monitor started. *)
Theorem run_stage_cache_short_circuit fuel stage dry force cf w :
  (existsb is_restore
     (events_since w (snd (run_stage E fuel stage dry force cf w))) = true
   <-> dry = false /\ force = false /\ cf = None)
  /\ (dry = false -> force = false -> cf = None ->
      restore_raises E (trace w ++ [EvRestore]) = None ->
      run_stage E fuel stage dry force cf w = (Ok tt, logged [EvRestore] w)).
Proof.
  split.
  - destruct (dry || force || is_some cf) eqn:Hskip.
    + split.
      * intros Hex.
        destruct (run_stage E fuel stage dry force cf w) as [r w'] eqn:Hr.
        apply (run_stage_skip_only _ _ _ _ _ Hskip) in Hr. simpl in Hex.
        rewrite (only_no_match not_restore is_restore w w') in Hex;
          [discriminate | | exact Hr].
        intros e He. unfold not_restore in He.
        destruct (is_restore e); [discriminate | reflexivity].
      * intros [-> [-> ->]]. discriminate.
    + destruct dry; [discriminate |]. destruct force; [discriminate |].
      destruct cf; [discriminate |].
      split; [intros _; auto |]. intros _.
      rewrite run_stage_consult.
      destruct (restore_raises E (trace w ++ [EvRestore])) as [e |].
      * destruct (isinstance_RunCacheNotFoundError e).
        -- destruct (unlocked_repo (cmd_run E fuel stage false None)
                                   (logged [EvRestore] w)) as [r w'] eqn:Hr.
           assert (Ho : only (fun _ => true) (logged [EvRestore] w) w').
           { eapply unlocked_repo_only;
               [reflexivity | reflexivity | | exact Hr].
             apply only_cmd_run. reflexivity. }
           destruct Ho as [l [Ht _]]. simpl in *.
           rewrite <- app_assoc in Ht.
           rewrite (events_since_app _ _ _ Ht). reflexivity.
        -- simpl. rewrite events_since_logged. reflexivity.
      * simpl. rewrite events_since_logged. reflexivity.
  - intros -> -> -> Hhit. rewrite run_stage_consult, Hhit. reflexivity.
Qed.

(** C7: of the errors [restore] may raise, RunCacheNotFoundError alone makes
    [run_stage] go on to run the command; any other error leaves [run_stage]
    as it was raised, with nothing done after the restore call. *)
Theorem restore_errors_propagate fuel stage w e :
  restore_raises E (trace w ++ [EvRestore]) = Some e ->
  (isinstance_RunCacheNotFoundError e = false ->
   run_stage E fuel stage false false None w
   = (Raise e, logged [EvRestore] w))
  /\ (isinstance_RunCacheNotFoundError e = true ->
      run_stage E fuel stage false false None w
      = unlocked_repo (cmd_run E fuel stage false None) (logged [EvRestore] w)).
Proof.
  intros He. rewrite run_stage_consult, He.
  split; intros ->; reflexivity.
Qed.

Lemma dry_loop fuel stage cf kw cs w :
  cmd_run_loop E fuel stage true cf (resolved_executable E) kw cs w
  = (Ok tt, logged (map EvDisplay cs) w).
Proof.
  revert w. induction cs as [| c cs IH]; intros w; simpl.
  - unfold ret. rewrite logged_nil. reflexivity.
  - unfold bind, display_command. rewrite emit_logged. simpl.
    rewrite IH, logged_logged. reflexivity.
Qed.

Lemma cmd_run_unfold fuel stage dry cf w :
  cmd_run E fuel stage dry cf w =
    match _enforce_cmd_list (cmd stage) with
    | Ok commands =>
        (when (negb dry) (warn_if_fish E (resolved_executable E)) ;;
         cmd_run_loop E fuel stage dry cf (resolved_executable E)
                      (prepare_kwargs E stage cf)
                      commands)
          (logged [EvLogInfo (running_message stage)] w)
    | Raise e => (Raise e, logged [EvLogInfo (running_message stage)] w)
    | Diverge => (Diverge, logged [EvLogInfo (running_message stage)] w)
    end.
Proof.
  unfold cmd_run, logger_info, bind at 1 2, lift. rewrite emit_logged.
  unfold running_message.
  destruct (_enforce_cmd_list (cmd stage)); reflexivity.
Qed.

Lemma dry_cmd_run fuel stage cf w :
  cmd_run E fuel stage true cf w =
    if cmd_truthy (cmd stage)
    then (Ok tt, logged (EvLogInfo (running_message stage)
                         :: map EvDisplay (commands_of (cmd stage))) w)
    else (Raise AssertionError, logged [EvLogInfo (running_message stage)] w).
Proof.
  rewrite cmd_run_unfold. unfold _enforce_cmd_list.
  destruct (cmd_truthy (cmd stage)); [| reflexivity].
  simpl. unfold bind, ret. fold (resolved_executable E).
  rewrite dry_loop, logged_logged.
  reflexivity.
Qed.

(** C9, amended: a dry run of any stage launches no process, does not ask
    the run cache and starts no monitor; and for a stage with a non-empty
    command it logs the header, displays the command strings in order, and
    returns normally, having done nothing else. *)
Theorem dry_run_displays_only fuel stage force cf w :
  (let evs := events_since w (snd (run_stage E fuel stage true force cf w)) in
   existsb is_popen evs = false
   /\ existsb is_restore evs = false
   /\ existsb is_thread_start evs = false)
  /\ (cmd_truthy (cmd stage) = true ->
      run_stage E fuel stage true force cf w
      = (Ok tt, logged (EvLogInfo (running_message stage)
                        :: map EvDisplay (commands_of (cmd stage))) w)).
Proof.
  rewrite run_stage_skip by reflexivity. rewrite dry_cmd_run.
  destruct (cmd_truthy (cmd stage)); simpl.
  - rewrite events_since_logged. simpl. split; [| reflexivity].
    induction (commands_of (cmd stage)) as [| c cs IH]; simpl; auto.
  - rewrite events_since_logged. simpl. split; [auto | discriminate].
Qed.

(** C10: a command given as one non-empty string is run as the list of that
    one command; an absent or empty command fails the assertion when only
    the header line has been logged, before anything is displayed or
    launched. *)
Theorem cmd_run_requires_command fuel stage dry cf w :
  (forall s, cmd stage = CmdStr s -> s <> "" ->
     _enforce_cmd_list (cmd stage) = Ok [s]
     /\ cmd_run E fuel stage dry cf w
        = (when (negb dry) (warn_if_fish E (resolved_executable E)) ;;
           cmd_run_loop E fuel stage dry cf (resolved_executable E)
                        (prepare_kwargs E stage cf) [s])
            (logged [EvLogInfo (running_message stage)] w))
  /\ (cmd stage = CmdNone \/ cmd stage = CmdStr "" \/ cmd stage = CmdList [] ->
      cmd_run E fuel stage dry cf w
      = (Raise AssertionError, logged [EvLogInfo (running_message stage)] w)).
Proof.
  split.
  - intros s Hs Hne. rewrite cmd_run_unfold, Hs.
    assert (Ht : _enforce_cmd_list (CmdStr s) = Ok [s]).
    { unfold _enforce_cmd_list. simpl. destruct s; [congruence | reflexivity]. }
    rewrite Ht. split; reflexivity.
  - intros H. rewrite cmd_run_unfold.
    destruct H as [-> | [-> | ->]]; reflexivity.
Qed.

End RunStage.

(** ** One run of one command *)

Section RunShape.
Variable E : Oracle.

Lemma thread_run_monitor fuel stage f proc wa rm wm :
  thread_run (_checkpoint_run E fuel stage f proc) wa = (rm, wm) ->
  (rm = Ok tt \/ rm = Diverge) /\ monitor_frame wa wm.
Proof.
  intros Ht. split.
  - unfold thread_run in Ht.
    destruct (_checkpoint_run E fuel stage f proc wa) as [[[] | e |] w1];
      inversion Ht; subst; auto.
  - revert Ht. apply (@preserves_thread_run _ _ _).
    + apply monitor_checkpoint_run.
    + intro e. apply monitor_emit. reflexivity.
Qed.

Lemma only_monitor_no_signal l :
  forallb monitor_event l = true ->
  filter is_signal l = [] /\ spawned l = [].
Proof.
  induction l as [| e l IH]; simpl; [auto |].
  intros H. apply andb_true_iff in H. destruct H as [He Hl].
  destruct (IH Hl) as [I1 I2].
  destruct e; simpl in *; try discriminate; auto.
Qed.

Lemma collect_status_collected w r w' n :
  current_pid w = Some n ->
  collect_status E w = (r, w') ->
  r = Ok tt /\ sigint w' = sigint w /\ old_handler w' = old_handler w
  /\ (exists code, p w' = Some {| pid := n; returncode := Some code |})
  /\ exists l, trace w' = trace w ++ l /\ filter is_signal l = []
               /\ spawned l = [].
Proof.
  unfold current_pid, collect_status, bind, gets. intros Hn.
  destruct (p w) as [[n' rc] |] eqn:Hp; [| discriminate].
  simpl in Hn. inversion Hn; subst. simpl.
  destruct rc as [code |]; simpl; intros H; inversion H; subst; clear H; simpl.
  - repeat split; eauto. exists nil. rewrite app_nil_r. auto.
  - repeat split; eauto.
Qed.

Lemma monitored_wait fuel stage cf n wa rb wb :
  current_pid wa = Some n ->
  checkpoint_monitor E fuel stage cf n (proc_communicate E) wa = (rb, wb) ->
  rb = Diverge
  \/ (rb = Ok tt /\ sigint wb = sigint wa /\ old_handler wb = old_handler wa
      /\ (exists code, p wb = Some {| pid := n; returncode := Some code |})
      /\ exists l, trace wb = trace wa ++ l /\ filter is_signal l = []
                   /\ spawned l = []).
Proof.
  intros Hn. destruct cf as [f |]; unfold checkpoint_monitor, proc_communicate.
  - unfold logger_debug, try_finally, bind, emit. simpl.
    match goal with |- context [thread_run ?t ?w0] =>
      destruct (thread_run t w0) as [rm wm] eqn:Hm end.
    apply thread_run_monitor in Hm. destruct Hm as [Hrm Hfr].
    destruct Hfr as [Hs [Ho [Hp [lm [Ht Hl]]]]].
    unfold keeps in *. simpl in *.
    change (current_pid wm = current_pid wa) in Hp.
    destruct Hrm as [-> | ->].
    + destruct (collect_status E wm) as [rc wc] eqn:Hc.
      apply (collect_status_collected _ _ _ n) in Hc; [| congruence].
      destruct Hc as [-> [Hs' [Ho' [Hp' [lc [Ht' [Hl1 Hl2]]]]]]].
      intros H; inversion H; subst; clear H. right. simpl.
      repeat split; try congruence.
      destruct (only_monitor_no_signal _ Hl) as [M1 M2].
      rewrite Ht', Ht. rewrite <- !app_assoc. eexists; split; [reflexivity |].
      rewrite !filter_app, !spawned_app, Hl1, Hl2, M1, M2. simpl. auto.
    + intros H; inversion H; subst. left; reflexivity.
  - intros Hc. right. apply (collect_status_collected _ _ _ n) in Hc; auto.
Qed.

Lemma run_outcome_spec c w n code :
  p w = Some {| pid := n; returncode := Some code |} ->
  _run_outcome c w = (outcome_of c code (killed w), w).
Proof.
  intros Hp. unfold _run_outcome, bind, gets, outcome_of. rewrite Hp. simpl.
  destruct code; simpl; try reflexivity; destruct (killed w); reflexivity.
Qed.

Lemma run_shape fuel stage exe c cf kw w r w' :
  _run E fuel stage exe c cf kw w = (r, w') ->
  r <> Diverge ->
  exists l,
    trace w' = trace w ++ l /\ spawned l = [_make_cmd exe c] /\
    match popen_result E (_make_cmd exe c)
                       (trace w ++ [EvPopen (_make_cmd exe c) kw]) with
    | inl e => r = Raise e /\ sigint w' = sigint w /\ filter is_signal l = []
    | inr n =>
        exists code,
          p w' = Some {| pid := n; returncode := Some code |}
          /\ r = outcome_of c code (killed w')
          /\ sigint w' = sigint_after_run (in_main_thread E) (sigint w)
          /\ filter is_signal l
             = signal_events_of_run (in_main_thread E) (sigint w)
    end.
Proof.
  unfold _run, subprocess_Popen, signal_signal, when.
  unfold try_finally, bind, gets, ret, raise, emit, set_p, set_sigint,
    set_old_handler, set_killed.
  simpl.
  destruct (popen_result E (_make_cmd exe c)
              (trace w ++ [EvPopen (_make_cmd exe c) kw])) as [e | n]; simpl.
  - intros H _; inversion H; subst; clear H; simpl.
    eexists; split; [reflexivity |]. simpl. auto.
  - destruct (in_main_thread E); simpl;
    match goal with |- context [checkpoint_monitor E fuel stage cf n ?b ?wa] =>
      destruct (checkpoint_monitor E fuel stage cf n b wa) as [rb wb] eqn:Hb
    end;
    (apply monitored_wait in Hb; [| reflexivity]);
    (destruct Hb as [-> | [-> [Hs [Ho [[code Hp] [l [Ht [Hl1 Hl2]]]]]]]];
     [intros H Hd; inversion H; subst; congruence |]);
    simpl in *.
    + rewrite Ho. destruct (handler_truthy (sigint w)) eqn:Htr.
      * rewrite (run_outcome_spec c _ n code) by exact Hp.
        intros H _; inversion H; subst; clear H. simpl.
        rewrite Ht, <- !app_assoc. eexists; split; [reflexivity |].
        simpl. rewrite !spawned_app, !filter_app, Hl1, Hl2. simpl.
        split; [reflexivity |]. exists code. auto.
      * rewrite (run_outcome_spec c _ n code) by exact Hp.
        intros H _; inversion H; subst; clear H. simpl.
        rewrite Ht, <- !app_assoc. eexists; split; [reflexivity |].
        simpl. rewrite Hl1, Hl2. simpl.
        split; [reflexivity |]. exists code. auto.
    + rewrite Ho. simpl.
      rewrite (run_outcome_spec c _ n code) by exact Hp.
      intros H _; inversion H; subst; clear H. simpl.
      rewrite Ht, <- !app_assoc. eexists; split; [reflexivity |].
      simpl. rewrite Hl1, Hl2. simpl.
      split; [reflexivity |]. exists code. auto.
Qed.
End RunShape.

(** ** Runs without a checkpoint callback *)

Section Plain.

Variable E : Oracle.

Lemma no_process_quiet l :
  existsb is_process_event l = false -> spawned l = [] /\ exit_codes l = [].
Proof.
  induction l as [| e l IH]; simpl; [auto |].
  intros H. apply orb_false_iff in H. destruct H as [He Hl].
  destruct (IH Hl) as [I1 I2].
  destruct e; simpl in *; try discriminate; auto.
Qed.

(** One run without a checkpoint callback: the launch, then when it has
    succeeded the wait, where the exit status of the child is collected, and
    the outcome by that status; besides the launch and the exit status only
    the SIGINT handler is touched. *)
Lemma run_plain fuel stage ex c kw w r w' :
  _run E fuel stage ex c None kw w = (r, w') ->
  let launch := EvPopen (_make_cmd ex c) kw in
  match popen_result E (_make_cmd ex c) (trace w ++ [launch]) with
  | inl e => r = Raise e /\ trace w' = trace w ++ [launch]
  | inr n =>
      exists mid post,
        existsb is_process_event (mid ++ post) = false
        /\ trace w'
           = trace w ++ launch :: mid
               ++ EvExit n (exit_code E (trace w ++ launch :: mid)) :: post
        /\ r = outcome_of c (exit_code E (trace w ++ launch :: mid)) false
  end.
Proof.
  unfold _run, checkpoint_monitor, subprocess_Popen, proc_communicate,
    collect_status, signal_signal, _run_outcome, when, outcome_of.
  unfold try_finally, bind, gets, ret, raise. simpl.
  destruct (popen_result E (_make_cmd ex c)
              (trace w ++ [EvPopen (_make_cmd ex c) kw])) as [e | n]; simpl.
  - intros H; inversion H; subst; clear H; simpl. auto.
  - destruct (in_main_thread E); simpl.
    + destruct (handler_truthy (sigint w)); simpl;
        rewrite <- ?app_assoc; simpl;
        destruct (exit_code E _) as [| q | q] eqn:Hc; simpl;
        intros H; inversion H; subst; clear H; simpl;
        rewrite <- ?app_assoc; simpl;
        exists [EvSignal SIG_IGN];
        first [ exists [EvSignal (sigint w)]; simpl; rewrite Hc; simpl;
                repeat split; reflexivity
              | exists nil; simpl; rewrite Hc; simpl;
                repeat split; reflexivity ].
    + rewrite <- ?app_assoc; simpl;
        destruct (exit_code E _) as [| q | q] eqn:Hc; simpl;
        intros H; inversion H; subst; clear H; simpl;
        rewrite <- ?app_assoc; simpl;
        exists nil, nil; simpl; rewrite Hc; simpl; repeat split; reflexivity.
Qed.

Lemma plain_loop fuel stage ex kw cs w r w' :
  cmd_run_loop E fuel stage false None ex kw cs w = (r, w') ->
  exists l, trace w' = trace w ++ l
            /\ ran_in_order E ex kw (trace w) cs l r.
Proof.
  revert w r w'. induction cs as [| c cs IH]; intros w r w'; simpl.
  - intros H; inversion H; subst. exists nil. rewrite app_nil_r.
    split; [reflexivity | constructor].
  - unfold bind at 1 2, display_command. rewrite emit_logged.
    destruct (_run E fuel stage ex c None kw (logged [EvDisplay c] w))
      as [r1 w1] eqn:Hr.
    apply run_plain in Hr. simpl in Hr. rewrite <- !app_assoc in Hr.
    simpl in Hr.
    destruct (popen_result E (_make_cmd ex c)
                (trace w ++ [EvDisplay c; EvPopen (_make_cmd ex c) kw]))
      as [e | n] eqn:Hlaunch.
    + destruct Hr as [-> Ht1].
      intros H; inversion H; subst; clear H.
      eexists. split; [exact Ht1 |]. constructor. exact Hlaunch.
    + destruct Hr as [mid [post [Hq [Ht1 Hr1]]]].
      assert (Hassoc : forall l' : list event,
                 (trace w ++ [EvDisplay c]) ++ l'
                 = trace w ++ EvDisplay c :: l').
      { intros l'. rewrite <- app_assoc. reflexivity. }
      repeat rewrite Hassoc in Ht1. repeat rewrite Hassoc in Hr1.
      remember (exit_code E (trace w ++ EvDisplay c
                               :: EvPopen (_make_cmd ex c) kw :: mid))
        as code eqn:Hcode in *.
      symmetry in Hcode. unfold outcome_of in Hr1.
      destruct (Z.eqb code 0) eqn:Hz.
      * apply Z.eqb_eq in Hz. rewrite Hz in Hcode, Ht1. subst r1.
        intros Hloop. apply IH in Hloop.
        destruct Hloop as [l2 [Ht2 Hrio]]. rewrite Ht1 in Hrio.
        exists (EvDisplay c :: EvPopen (_make_cmd ex c) kw
                  :: mid ++ EvExit n 0 :: post ++ l2).
        split.
        -- rewrite Ht2, Ht1, <- !app_assoc. simpl.
           rewrite <- !app_assoc. reflexivity.
        -- apply rio_next; assumption.
      * apply Z.eqb_neq in Hz. subst r1.
        intros H; inversion H; subst w1 r; clear H.
        eexists. split; [exact Ht1 |].
        apply rio_failed; assumption.
Qed.

Lemma warn_if_fish_quiet ex w :
  exists l, warn_if_fish E ex w = (Ok tt, logged l w)
            /\ existsb is_process_event l = false.
Proof.
  unfold warn_if_fish. destruct ex as [s |].
  - destruct (negb (String.eqb (PyStr.basename (realpath E s)) "fish")).
    + exists nil. unfold ret. rewrite logged_nil. auto.
    + exists [EvWarnFish]. rewrite emit_logged. auto.
  - exists nil. unfold ret. rewrite logged_nil. auto.
Qed.

Lemma plain_cmd_run fuel stage w r w' :
  cmd_truthy (cmd stage) = true ->
  cmd_run E fuel stage false None w = (r, w') ->
  exists head l,
    trace w' = trace w ++ head ++ l
    /\ existsb is_process_event head = false
    /\ ran_in_order E (resolved_executable E) (prepare_kwargs E stage None)
                    (trace w ++ head) (commands_of (cmd stage)) l r.
Proof.
  intros Htr. rewrite cmd_run_unfold. unfold _enforce_cmd_list.
  rewrite Htr. fold (commands_of (cmd stage)). simpl. unfold bind at 1.
  destruct (warn_if_fish_quiet (resolved_executable E)
              (logged [EvLogInfo (running_message stage)] w))
    as [lw [-> Hq]].
  intros Hloop. apply plain_loop in Hloop.
  destruct Hloop as [l [Ht Hrio]]. simpl in Ht, Hrio.
  rewrite <- app_assoc in Ht, Hrio.
  exists ([EvLogInfo (running_message stage)] ++ lw), l. split; [| split].
  - rewrite Ht, <- !app_assoc. reflexivity.
  - simpl. exact Hq.
  - exact Hrio.
Qed.

Lemma ran_in_order_returns ex kw t cs l r :
  ran_in_order E ex kw t cs l r -> r <> Diverge.
Proof. induction 1; congruence. Qed.

(** What [ran_in_order] says of the children and of the exit statuses, spelled
    out: the children launched are those of the first [k] commands, in
    order; all of them but the last have exited with 0; and the run has
    ended in one of three ways: every command has run and exited with 0; the
    last child has exited with another status, which the error carries
    with the command; or the last launch has raised. *)
Lemma ran_in_order_spelled ex kw t cs l r :
  ran_in_order E ex kw t cs l r ->
  cs <> [] ->
  exists k,
    (1 <= k <= length cs)%nat
    /\ spawned l = map (_make_cmd ex) (firstn k cs)
    /\ ((r = Ok tt /\ k = length cs /\ exit_codes l = repeat 0 k)
        \/ (exists c code,
              nth_error cs (k - 1) = Some c /\ code <> 0
              /\ exit_codes l = repeat 0 (k - 1) ++ [code]
              /\ r = Raise (StageCmdFailedError c (Some code)))
        \/ (exists c e t',
              nth_error cs (k - 1) = Some c
              /\ exit_codes l = repeat 0 (k - 1)
              /\ popen_result E (_make_cmd ex c) t' = inl e
              /\ r = Raise e)).
Proof.
  induction 1 as [t | t c rest n mid post l r Hq Hl Hc Hrio IH
                  | t c rest n code mid post Hq Hl Hc Hne
                  | t c rest e Hl]; intros Hcs.
  - congruence.
  - rewrite existsb_app in Hq. apply orb_false_iff in Hq.
    destruct Hq as [Hmid Hpost].
    destruct (no_process_quiet _ Hmid) as [Sm Xm].
    destruct (no_process_quiet _ Hpost) as [Sp Xp].
    assert (Hsp : forall l', spawned (EvDisplay c :: EvPopen (_make_cmd ex c) kw
                               :: mid ++ EvExit n 0 :: post ++ l')
                             = _make_cmd ex c :: spawned l').
    { intros l'. simpl. rewrite spawned_app. simpl. rewrite spawned_app.
      rewrite Sm, Sp. reflexivity. }
    assert (Hex : forall l', exit_codes (EvDisplay c
                               :: EvPopen (_make_cmd ex c) kw
                               :: mid ++ EvExit n 0 :: post ++ l')
                             = 0 :: exit_codes l').
    { intros l'. simpl. rewrite exit_codes_app. simpl.
      rewrite exit_codes_app. rewrite Xm, Xp. reflexivity. }
    rewrite Hsp, Hex.
    destruct rest as [| c2 rest].
    + inversion Hrio; subst. exists 1%nat. simpl.
      split; [lia |]. split; [reflexivity |]. left. auto.
    + destruct IH as [k [Hk [Hs Hcase]]]; [discriminate |].
      exists (S k). split; [simpl in *; lia |].
      split; [simpl; rewrite Hs; reflexivity |].
      assert (Hk1 : (S k - 1 = S (k - 1))%nat) by lia.
      rewrite Hk1.
      destruct Hcase as [[-> [-> Hx]] | [[c' [code [Hn [Hne [Hx ->]]]]]
                                        | [c' [e [t' [Hn [Hx [Hl' ->]]]]]]]].
      * left. rewrite Hx. simpl. auto.
      * right; left. exists c', code. rewrite Hx. simpl. auto.
      * right; right. exists c', e, t'. rewrite Hx. simpl. auto.
  - rewrite existsb_app in Hq. apply orb_false_iff in Hq.
    destruct Hq as [Hmid Hpost].
    destruct (no_process_quiet _ Hmid) as [Sm Xm].
    destruct (no_process_quiet _ Hpost) as [Sp Xp].
    exists 1%nat. split; [simpl; lia |].
    split.
    + simpl. rewrite spawned_app. simpl. rewrite Sm, Sp. reflexivity.
    + right; left. exists c, code. simpl.
      rewrite exit_codes_app. simpl. rewrite Xm, Xp. auto.
  - exists 1%nat. split; [simpl; lia |]. split; [reflexivity |].
    right; right. exists c, e. eexists. simpl. eauto.
Qed.

(** C5: on a cache miss of a stage with at least one command, the commands
    are run in their declared order, one child each: a command is displayed
    and launched, its child is waited for and its exit status collected
    before anything is done about the next command; the next command is
    run after an exit status of 0 and only then; a non-zero exit status
    ends the run there, with a StageCmdFailedError that carries that command
    and that exit status; a launch that raises ends it with what it
    raised. *)
Theorem commands_run_in_order fuel stage w e0 r w' :
  cmd_truthy (cmd stage) = true ->
  restore_raises E (trace w ++ [EvRestore]) = Some e0 ->
  isinstance_RunCacheNotFoundError e0 = true ->
  run_stage E fuel stage false false None w = (r, w') ->
  let cs := commands_of (cmd stage) in
  let exe := resolved_executable E in
  let evs := events_since w w' in
  cs <> []
  /\ (exists head l,
        evs = head ++ l ++ [EvLockAcquire]
        /\ existsb is_process_event head = false
        /\ ran_in_order E exe (prepare_kwargs E stage None)
                        (trace w ++ head) cs l r)
  /\ exists k,
      (1 <= k <= length cs)%nat
      /\ spawned evs = map (_make_cmd exe) (firstn k cs)
      /\ ((r = Ok tt /\ k = length cs /\ exit_codes evs = repeat 0 k)
          \/ (exists c code,
                nth_error cs (k - 1) = Some c /\ code <> 0
                /\ exit_codes evs = repeat 0 (k - 1) ++ [code]
                /\ r = Raise (StageCmdFailedError c (Some code)))
          \/ (exists c e t,
                nth_error cs (k - 1) = Some c
                /\ exit_codes evs = repeat 0 (k - 1)
                /\ popen_result E (_make_cmd exe c) t = inl e
                /\ r = Raise e)).
Proof.
  intros Htr Hmiss Hnf Hrun cs exe evs.
  assert (Hcs : cs <> []).
  { unfold cs. destruct (cmd stage) as [| s | l]; simpl in *;
      try discriminate. destruct l; discriminate. }
  rewrite run_stage_consult, Hmiss, Hnf in Hrun.
  unfold unlocked_repo, bind, try_finally in Hrun.
  rewrite emit_logged in Hrun.
  destruct (cmd_run E fuel stage false None
              (logged [EvLockRelease] (logged [EvRestore] w)))
    as [r1 w1] eqn:Hc.
  apply plain_cmd_run in Hc; [| exact Htr].
  destruct Hc as [head [l [Ht [Hq Hrio]]]]. simpl in Ht, Hrio.
  assert (Hr : r = r1 /\ trace w' = trace w1 ++ [EvLockAcquire]).
  { destruct r1; simpl in Hrun; inversion Hrun; subst; simpl; auto.
    exfalso. eapply ran_in_order_returns; [exact Hrio | reflexivity]. }
  destruct Hr as [-> Ht'].
  rewrite <- !app_assoc in Ht, Hrio. simpl in Ht, Hrio.
  assert (Hevs : evs = (EvRestore :: EvLockRelease :: head)
                         ++ l ++ [EvLockAcquire]).
  { unfold evs. apply events_since_app. rewrite Ht', Ht, <- !app_assoc.
    simpl. rewrite <- !app_assoc. reflexivity. }
  destruct (no_process_quiet _ Hq) as [Sh Xh].
  split; [exact Hcs |]. split.
  - exists (EvRestore :: EvLockRelease :: head), l.
    split; [exact Hevs |]. split; [exact Hq | exact Hrio].
  - destruct (ran_in_order_spelled _ _ _ _ _ _ Hrio Hcs) as [k [Hk [Hs Hcase]]].
    exists k. split; [exact Hk |].
    rewrite Hevs, !spawned_app, !exit_codes_app. simpl. rewrite Sh, Xh.
    simpl. rewrite !app_nil_r. split; [exact Hs | exact Hcase].
Qed.

End Plain.

(** ** The checkpoint monitor, tick by tick *)

Section Tick.
Variable E : Oracle.

Ltac norm :=
  repeat (progress (unfold logged; rewrite <- ?app_assoc; simpl)).

Lemma run_callback_attempt stage f w :
  _run_callback E stage f w =
    (match fst (callback_attempt E f (trace w)) with
     | Some e => Raise e
     | None => Ok tt
     end,
     logged (snd (callback_attempt E f (trace w))) w).
Proof.
  unfold _run_callback, relock_repo, external, logger_debug, callback_attempt.
  unfold try_finally, bind, gets, ret, raise, emit. norm.
  destruct (save_raises E (trace w ++ [EvLockAcquire; EvSave])) as [e |];
    norm; [reflexivity |].
  destruct (commit_raises E (trace w ++ [EvLockAcquire; EvSave; EvCommit]))
    as [e |]; norm; [reflexivity |].
  destruct (call_raises E f _) as [e |]; norm; reflexivity.
Qed.

Lemma kill_spec proc w :
  match kill_raises E (trace w) with
  | Some e => _kill E proc w = (Raise e, w)
  | None =>
      exists w',
        _kill E proc w = (Ok tt, w')
        /\ trace w' = trace w ++ kill_events E proc (p w) (trace w)
        /\ marker w' = marker w /\ killed w' = killed w
  end.
Proof.
  unfold kill_raises, _kill, _kill_nt, subprocess_call, proc_terminate,
    proc_wait, acting, collect_status, kill_events.
  destruct (String.eqb (os_name E) "nt").
  - unfold bind, gets, raise. simpl.
    destruct (taskkill_raises E (trace w)); [reflexivity |].
    eexists. rewrite emit_logged. simpl. auto.
  - unfold bind, gets, emit, set_p, ret, raise. simpl.
    destruct (terminate_raises E (trace w)); [reflexivity |]. simpl.
    destruct (p w) as [[n rc] |]; simpl.
    + destruct rc; simpl; eexists; norm; auto.
    + eexists; norm; auto.
Qed.

Lemma callback_attempt_no_remove f t :
  existsb is_remove (snd (callback_attempt E f t)) = false.
Proof.
  unfold callback_attempt.
  destruct (save_raises E _); [reflexivity |].
  destruct (commit_raises E _); reflexivity.
Qed.

Lemma kill_events_no_remove proc q t :
  existsb is_remove (kill_events E proc q t) = false.
Proof.
  unfold kill_events. destruct (String.eqb (os_name E) "nt"); [reflexivity |].
  destruct q as [[n rc] |]; [destruct rc |]; reflexivity.
Qed.

(** A tick whose poll finds the marker: the [try] statement as [tick_body]
    has it, then the [finally] block, whose [os.remove] raises when the
    file is gone. *)
Lemma tick_observed stage f proc w :
  marker w || marker_created E (trace w) = true ->
  let t1 := trace w ++ [EvPoll true] in
  let body := tick_body E f proc (p w) t1 in
  let t' := t1 ++ added body
               ++ [EvLogDebug "Remove checkpoint signal file";
                   EvRemove (signal_path E stage)] in
  exists w',
    _checkpoint_tick E stage f proc w
    = (if marker_gone E t'
       then Raise (FileNotFoundError (signal_path E stage))
       else match pending body with
            | Some e => Raise e
            | None => Ok tt
            end,
       w')
    /\ trace w' = t'
    /\ marker w' = false
    /\ killed w' = killed w || flagged body.
Proof.
  intros Hobs t1 body t'. subst t' body.
  unfold _checkpoint_tick, os_path_exists, os_remove,
    logger_exception, logger_debug.
  unfold try_finally, try_except, bind, gets, ret, raise, emit, set_marker,
    set_killed.
  rewrite Hobs. simpl. rewrite run_callback_attempt. simpl.
  fold t1. unfold tick_body.
  destruct (fst (callback_attempt E f t1)) as [e |].
  - destruct (isinstance_Exception e).
    + match goal with |- context [_kill E proc ?wk] =>
        pose proof (kill_spec proc wk) as Hk
      end.
      simpl in Hk. unfold t1 in *. norm. rewrite <- !app_assoc in Hk.
      simpl in Hk.
      match type of Hk with match ?k with _ => _ end =>
        destruct k as [ek |] eqn:Hkr
      end.
      * rewrite Hk. norm.
        destruct (marker_gone E _); eexists;
          (split; [reflexivity |]); simpl;
          rewrite orb_false_r; auto.
      * destruct Hk as [wk' [Hk [Htk [Hmk Hkk]]]].
        rewrite Hk. simpl. rewrite Hmk, Htk. norm.
        destruct (marker_gone E _); eexists;
          (split; [reflexivity |]); simpl;
          rewrite orb_true_r; auto.
    + norm.
      destruct (marker_gone E _); eexists;
        (split; [reflexivity |]); simpl; rewrite orb_false_r; auto.
  - norm.
    destruct (marker_gone E _); eexists;
      (split; [reflexivity |]); simpl; rewrite orb_false_r; auto.
Qed.

Lemma tick_unobserved stage f proc w :
  marker w || marker_created E (trace w) = false ->
  _checkpoint_tick E stage f proc w = (Ok tt, logged [EvPoll false] w)
  /\ marker w = false.
Proof.
  intros Hobs. unfold _checkpoint_tick, os_path_exists.
  unfold bind, gets, ret, emit, set_marker. rewrite Hobs. simpl.
  apply orb_false_iff in Hobs. destruct Hobs as [Hm _].
  split; [| exact Hm]. unfold logged. rewrite Hm. reflexivity.
Qed.

Lemma os_path_exists_found path w w1 :
  os_path_exists E path w = (Ok true, w1) ->
  marker w || marker_created E (trace w) = true
  /\ trace w1 = trace w ++ [EvPoll true] /\ p w1 = p w.
Proof.
  unfold os_path_exists, bind, gets, ret, emit, set_marker. simpl.
  destruct (marker w || marker_created E (trace w));
    intros H; inversion H; subst; simpl; auto.
Qed.

Lemma run_callback_result stage f w1 rc w2 :
  _run_callback E stage f w1 = (rc, w2) ->
  rc = match fst (callback_attempt E f (trace w1)) with
       | Some e => Raise e
       | None => Ok tt
       end
  /\ trace w2 = trace w1 ++ snd (callback_attempt E f (trace w1))
  /\ p w2 = p w1 /\ killed w2 = killed w1.
Proof.
  rewrite run_callback_attempt. intros H; inversion H; subst; simpl. auto.
Qed.

(** C3: at a tick whose poll finds the marker, whatever the callback attempt
    does (it returns, it raises an error that is handled, it raises
    something that is not caught), the last thing the tick does is remove
    the marker: the removal comes after the events of the attempt and of
    the handler, none of which is a removal, and the marker is absent when
    the tick ends.  The tick returns, or it raises what was not caught: an
    exception of the callback attempt that is not an [Exception], what
    [_kill] has raised in the handler, or the FileNotFoundError of a removal
    that found the file gone. *)
Theorem marker_removed_after_observation stage f proc w w1 rc w2 r w' :
  os_path_exists E (signal_path E stage) w = (Ok true, w1) ->
  _run_callback E stage f w1 = (rc, w2) ->
  _checkpoint_tick E stage f proc w = (r, w') ->
  marker w' = false
  /\ (r = Ok tt
      \/ (r = rc /\ exists e, rc = Raise e /\ isinstance_Exception e = false)
      \/ (exists t e, kill_raises E t = Some e /\ r = Raise e)
      \/ (marker_gone E (trace w') = true
          /\ r = Raise (FileNotFoundError (signal_path E stage))))
  /\ exists l,
      trace w' = trace w2 ++ l
                   ++ [EvLogDebug "Remove checkpoint signal file";
                       EvRemove (signal_path E stage)]
      /\ existsb is_remove (events_since w w2 ++ l) = false
      /\ (rc = Ok tt -> l = []).
Proof.
  intros Hpoll Hcb Htick.
  apply os_path_exists_found in Hpoll. destruct Hpoll as [Hobs [Hw1 Hp1]].
  apply run_callback_result in Hcb. rewrite Hw1 in Hcb.
  destruct Hcb as [Hrc [Hw2 _]].
  assert (Hsince : events_since w w2
                   = EvPoll true
                     :: snd (callback_attempt E f (trace w ++ [EvPoll true]))).
  { apply events_since_app. rewrite Hw2, <- app_assoc. reflexivity. }
  assert (Hclean : forall l,
             existsb is_remove l = false ->
             existsb is_remove (events_since w w2 ++ l) = false).
  { intros l Hl. rewrite Hsince. simpl.
    rewrite existsb_app, callback_attempt_no_remove, Hl. reflexivity. }
  destruct (tick_observed stage f proc w Hobs) as [wt [Ht [Htr [Hm _]]]].
  rewrite Ht in Htick. injection Htick as Hr Hwt. subst wt. clear Ht.
  split; [exact Hm |].
  revert Hr Htr. unfold tick_body.
  destruct (fst (callback_attempt E f (trace w ++ [EvPoll true])))
    as [e |] eqn:Hatt; [destruct (isinstance_Exception e) eqn:Hexc;
                        [destruct (kill_raises E _) as [ek |] eqn:Hkr |] |];
    cbn [pending added flagged]; intros Hr Htr; rewrite <- Htr in Hr;
    (split;
     [destruct (marker_gone E (trace w')); subst r;
      [right; right; right; split; reflexivity |] |]).
  - right; right; left. eexists. exists ek. split; [exact Hkr | reflexivity].
  - exists [EvLogException
              "Error generating checkpoint, stage will be aborted"].
    split; [| split].
    + rewrite Htr, Hw2, <- !app_assoc. reflexivity.
    + apply Hclean. reflexivity.
    + rewrite Hrc. discriminate.
  - left; reflexivity.
  - match type of Htr with _ = _ ++ (_ ++ ?h) ++ _ => exists h end.
    split; [| split].
    + rewrite Htr, Hw2, <- !app_assoc. reflexivity.
    + apply Hclean. simpl. rewrite existsb_app, kill_events_no_remove.
      reflexivity.
    + rewrite Hrc. discriminate.
  - right; left. split; [congruence | exists e; auto].
  - exists nil. split; [| split].
    + rewrite Htr, Hw2, <- !app_assoc. reflexivity.
    + apply Hclean. reflexivity.
    + reflexivity.
  - left; reflexivity.
  - exists nil. split; [| split].
    + rewrite Htr, Hw2, <- !app_assoc. reflexivity.
    + apply Hclean. reflexivity.
    + reflexivity.
Qed.

(** Every tick comes to an end, and the history has grown by the poll at
    least. *)
Lemma tick_progress stage f proc w :
  exists r1 w1 b l,
    _checkpoint_tick E stage f proc w = (r1, w1)
    /\ r1 <> Diverge
    /\ trace w1 = trace w ++ EvPoll b :: l.
Proof.
  destruct (marker w || marker_created E (trace w)) eqn:Hobs.
  - destruct (tick_observed stage f proc w Hobs) as [w1 [Ht [Htr _]]].
    do 2 eexists. exists true. eexists.
    split; [exact Ht |]. split.
    + destruct (marker_gone E _); [discriminate |].
      destruct (pending _); discriminate.
    + rewrite Htr, <- app_assoc. reflexivity.
  - destruct (tick_unobserved stage f proc w Hobs) as [Ht _].
    do 2 eexists. exists false, nil.
    split; [exact Ht |]. split; [discriminate | reflexivity].
Qed.

(** The loop needs no more fuel than there are events before the stop
    request: if the request is there for every history of [n] events or
    more, the loop comes to an end. *)
Lemma checkpoint_run_returns stage f proc n :
  (forall t, (n <= length t)%nat -> stop_requested E t = true) ->
  forall fuel w r w',
    (1 <= fuel)%nat -> (n <= fuel + length (trace w))%nat ->
    _checkpoint_run E fuel stage f proc w = (r, w') -> r <> Diverge.
Proof.
  intros Hstop. induction fuel as [| fuel IH]; intros w r w' Hpos Hn;
    [lia |].
  simpl. unfold bind at 1.
  destruct (tick_progress stage f proc w) as [r1 [w1 [b [l [Ht [Hr1 Htr]]]]]].
  rewrite Ht.
  assert (Hlen : (length (trace w) + 1 <= length (trace w1))%nat).
  { rewrite Htr, length_app. simpl. lia. }
  destruct r1 as [[] | e |]; [| intros H; inversion H; discriminate
                              | congruence].
  unfold bind, done_wait, gets, emit. simpl.
  destruct (stop_requested E (trace w1)) eqn:Hs.
  - intros H; inversion H; discriminate.
  - destruct fuel as [| fuel'].
    + rewrite Hstop in Hs by lia. discriminate.
    + apply IH; [lia |]. simpl. rewrite length_app. simpl. lia.
Qed.

Section NothingEscapes.

(** The conditions under which nothing leaves the loop: the callback attempt
    raises nothing but [Exception]s, the kill returns, and the marker is
    there when it is removed. *)
Variable f : callable.
Hypothesis errors_only :
  forall t e, fst (callback_attempt E f t) = Some e ->
              isinstance_Exception e = true.
Hypothesis kill_returns : forall t, kill_raises E t = None.
Hypothesis marker_stays : forall t, marker_gone E t = false.

Lemma tick_returns stage proc w :
  exists w' b l,
    _checkpoint_tick E stage f proc w = (Ok tt, w')
    /\ trace w' = trace w ++ EvPoll b :: l.
Proof.
  destruct (marker w || marker_created E (trace w)) eqn:Hobs.
  - destruct (tick_observed stage f proc w Hobs) as [w1 [Ht [Htr _]]].
    rewrite marker_stays in Ht.
    exists w1, true. eexists. split; [| rewrite Htr, <- app_assoc; reflexivity].
    rewrite Ht. unfold tick_body.
    destruct (fst (callback_attempt E f (trace w ++ [EvPoll true])))
      as [e |] eqn:Hatt; [| reflexivity].
    rewrite (errors_only _ _ Hatt), kill_returns. reflexivity.
  - destruct (tick_unobserved stage f proc w Hobs) as [Ht _].
    exists (logged [EvPoll false] w), false, nil. split; [exact Ht |].
    reflexivity.
Qed.

Lemma checkpoint_run_catches_all stage proc fuel w r w' :
  _checkpoint_run E fuel stage f proc w = (r, w') ->
  r = Ok tt \/ r = Diverge.
Proof.
  revert w r w'. induction fuel as [| fuel IH]; intros w r w'; simpl.
  - intros H; inversion H; auto.
  - unfold bind at 1.
    destruct (tick_returns stage proc w) as [w1 [b [l [Ht _]]]].
    rewrite Ht. unfold bind, done_wait, gets, emit. simpl.
    destruct (stop_requested E (trace w1)).
    + intros H; inversion H; auto.
    + apply IH.
Qed.

(** So the loop goes on until the stop request and then returns. *)
Lemma checkpoint_run_stops stage proc n :
  (forall t, (n <= length t)%nat -> stop_requested E t = true) ->
  forall fuel w,
    (1 <= fuel)%nat -> (n <= fuel + length (trace w))%nat ->
    exists w', _checkpoint_run E fuel stage f proc w = (Ok tt, w').
Proof.
  intros Hstop fuel w Hpos Hn.
  destruct (_checkpoint_run E fuel stage f proc w) as [r w'] eqn:Hr.
  destruct (checkpoint_run_catches_all stage proc fuel w r w' Hr)
    as [-> | ->].
  - exists w'. reflexivity.
  - exfalso.
    apply (checkpoint_run_returns stage f proc n Hstop fuel w Diverge w');
      auto.
Qed.

End NothingEscapes.

(** What the loop does after a tick: an exception of the tick is the loop's,
    and after a tick that returns the loop comes to its [done.wait]. *)
Lemma checkpoint_run_after_tick fuel stage f proc w r1 w1 :
  _checkpoint_tick E stage f proc w = (r1, w1) ->
  _checkpoint_run E (S fuel) stage f proc w
  = match r1 with
    | Ok _ =>
        if stop_requested E (trace w1)
        then (Ok tt, logged [EvDoneWait true] w1)
        else _checkpoint_run E fuel stage f proc (logged [EvDoneWait false] w1)
    | Raise e => (Raise e, w1)
    | Diverge => (Diverge, w1)
    end.
Proof.
  intros Ht. simpl. unfold bind at 1. rewrite Ht.
  destruct r1 as [[] | e |]; try reflexivity.
  unfold bind, done_wait, gets, emit, ret. simpl.
  destruct (stop_requested E (trace w1)); reflexivity.
Qed.

(** C4, amended: at a tick whose poll finds the marker and whose callback
    attempt raises [e].  When [e] is an [Exception], [_kill] returns and the
    marker is still there to be removed, the monitor logs the failure,
    kills the child, sets [killed], removes the marker, and the tick returns
    normally; the loop then comes to its [done.wait] as after any other
    tick: it returns if the stop request has come, and polls again
    otherwise.  In every other case an exception leaves the loop, after the
    removal of the marker: [e] itself when it is not an [Exception], with
    nothing logged, nobody killed and [killed] as it was; what [_kill]
    raised, with the failure logged and [killed] as it was; and the
    FileNotFoundError of [os.remove] when the marker is gone, in place of
    any other. *)
Theorem callback_error_kills_and_continues fuel stage f proc w w1 e w2 :
  os_path_exists E (signal_path E stage) w = (Ok true, w1) ->
  _run_callback E stage f w1 = (Raise e, w2) ->
  let failure :=
    EvLogException "Error generating checkpoint, stage will be aborted" in
  let removal := [EvLogDebug "Remove checkpoint signal file";
                  EvRemove (signal_path E stage)] in
  let handled :=
    failure :: kill_events E proc (p w2) (trace w2 ++ [failure])
      ++ [EvKilledSet] in
  let gone_or (l : list event) (e' : pyexn) :=
    if marker_gone E (trace w2 ++ l ++ removal)
    then FileNotFoundError (signal_path E stage) else e' in
  (isinstance_Exception e = true ->
   kill_raises E (trace w2 ++ [failure]) = None ->
   marker_gone E (trace w2 ++ handled ++ removal) = false ->
   exists w',
     _checkpoint_tick E stage f proc w = (Ok tt, w')
     /\ trace w' = trace w2 ++ handled ++ removal
     /\ killed w' = true
     /\ marker w' = false
     /\ _checkpoint_run E (S fuel) stage f proc w
        = if stop_requested E (trace w')
          then (Ok tt, logged [EvDoneWait true] w')
          else _checkpoint_run E fuel stage f proc
                               (logged [EvDoneWait false] w'))
  /\ (isinstance_Exception e = true ->
      kill_raises E (trace w2 ++ [failure]) = None ->
      marker_gone E (trace w2 ++ handled ++ removal) = true ->
      exists w',
        _checkpoint_run E (S fuel) stage f proc w
        = (Raise (FileNotFoundError (signal_path E stage)), w')
        /\ trace w' = trace w2 ++ handled ++ removal
        /\ killed w' = true
        /\ marker w' = false)
  /\ (isinstance_Exception e = true ->
      forall ek,
        kill_raises E (trace w2 ++ [failure]) = Some ek ->
        exists w',
          _checkpoint_run E (S fuel) stage f proc w
          = (Raise (gone_or [failure] ek), w')
          /\ trace w' = trace w2 ++ [failure] ++ removal
          /\ killed w' = killed w
          /\ marker w' = false)
  /\ (isinstance_Exception e = false ->
      exists w',
        _checkpoint_run E (S fuel) stage f proc w
        = (Raise (gone_or [] e), w')
        /\ trace w' = trace w2 ++ removal
        /\ killed w' = killed w
        /\ marker w' = false).
Proof.
  intros Hpoll Hcb failure removal handled gone_or.
  apply os_path_exists_found in Hpoll. destruct Hpoll as [Hobs [Hw1 Hp1]].
  apply run_callback_result in Hcb. rewrite Hw1 in Hcb.
  destruct Hcb as [Hrc [Hw2 [Hp2 _]]].
  assert (Hq : p w = p w2) by congruence.
  assert (Ht2 : forall l,
             trace w ++ [EvPoll true]
             ++ snd (callback_attempt E f (trace w ++ [EvPoll true])) ++ l
             = trace w2 ++ l).
  { intros l. rewrite Hw2, <- !app_assoc. reflexivity. }
  destruct (tick_observed stage f proc w Hobs) as [wt [Ht [Htr [Hm Hk]]]].
  pose proof (checkpoint_run_after_tick fuel stage f proc w _ _ Ht) as Hloop.
  revert Ht Htr Hk Hloop. unfold tick_body.
  destruct (fst (callback_attempt E f (trace w ++ [EvPoll true])))
    as [e' |]; [| discriminate].
  injection Hrc as <-. rewrite Hq, <- ?app_assoc, !Ht2.
  destruct (isinstance_Exception e).
  - fold failure. destruct (kill_raises E (trace w2 ++ [failure])) as [ek |];
      cbn [pending added flagged]; rewrite <- ?app_assoc, ?Ht2;
      fold removal; intros Ht Htr Hk Hloop.
    + split; [intros _ H; discriminate |].
      split; [intros _ H; discriminate |].
      split; [| intros H; discriminate].
      intros _ ek0 Hek. injection Hek as <-. exists wt.
      rewrite orb_false_r in Hk. split; [| auto].
      unfold gone_or. rewrite Hloop.
      destruct (marker_gone E _); reflexivity.
    + rewrite orb_true_r in Hk.
      split; [| split; [| split; [intros _ ek H; discriminate
                                  | intros H; discriminate]]].
      * intros _ _ Hg. unfold handled in Hg. rewrite Hg in Ht, Hloop.
        exists wt. auto.
      * intros _ _ Hg. unfold handled in Hg. rewrite Hg in Hloop.
        exists wt. auto.
  - cbn [pending added flagged]. rewrite <- ?app_assoc, ?Ht2.
    fold removal. intros Ht Htr Hk Hloop.
    split; [intros H; discriminate |].
    split; [intros H; discriminate |].
    split; [intros H; discriminate |].
    intros _. exists wt. rewrite orb_false_r in Hk. split; [| auto].
    unfold gone_or. rewrite Hloop. simpl app.
    destruct (marker_gone E _); reflexivity.
Qed.

End Tick.


(** ** Runs come to an end *)

Section Returns.

Variable E : Oracle.

Lemma collect_status_returns w : exists w', collect_status E w = (Ok tt, w').
Proof.
  unfold collect_status, bind, gets.
  destruct (p w) as [[n rc] |]; [destruct rc |]; simpl; eexists; reflexivity.
Qed.

Lemma run_outcome_returns c w r w' : _run_outcome c w = (r, w') -> r <> Diverge.
Proof.
  unfold _run_outcome, bind, gets.
  destruct (match p w with Some pr => returncode pr | None => None end)
    as [[| q | q] |]; simpl; try destruct (killed w);
    intros H; inversion H; discriminate.
Qed.

Lemma thread_run_returns stage f proc n fuel wa rm wm :
  (forall t, (n <= length t)%nat -> stop_requested E t = true) ->
  (1 <= fuel)%nat -> (n <= fuel)%nat ->
  thread_run (_checkpoint_run E fuel stage f proc) wa = (rm, wm) ->
  rm = Ok tt.
Proof.
  intros Hstop Hpos Hn. unfold thread_run.
  destruct (_checkpoint_run E fuel stage f proc wa) as [r1 w1] eqn:Hc.
  apply (checkpoint_run_returns E stage f proc n Hstop) in Hc; [| lia | lia].
  destruct r1 as [[] | e |]; [| | congruence];
    intros H; inversion H; reflexivity.
Qed.

(** With fuel for the events up to the stop request, [_run] comes to an
    end: it returns or raises. *)
Lemma run_returns fuel stage ex c cf kw w r w' n :
  (forall t, (n <= length t)%nat -> stop_requested E t = true) ->
  (1 <= fuel)%nat -> (n <= fuel)%nat ->
  _run E fuel stage ex c cf kw w = (r, w') -> r <> Diverge.
Proof.
  intros Hstop Hpos Hn.
  unfold _run, subprocess_Popen, signal_signal, when, checkpoint_monitor,
    proc_communicate, logger_debug.
  unfold try_finally, bind, gets, ret, raise, emit, set_p, set_sigint,
    set_old_handler, set_killed.
  simpl.
  destruct (popen_result E (_make_cmd ex c)
              (trace w ++ [EvPopen (_make_cmd ex c) kw])) as [e | m]; simpl.
  - intros H; inversion H; discriminate.
  - destruct cf as [f |].
    + destruct (in_main_thread E); simpl;
        match goal with |- context [thread_run ?t ?wa] =>
          destruct (thread_run t wa) as [rm wm] eqn:Hm
        end;
        apply (thread_run_returns stage f m n fuel _ _ _ Hstop Hpos Hn) in Hm;
        subst rm;
        destruct (collect_status_returns wm) as [wc ->];
        destruct (handler_truthy (old_handler _));
        apply run_outcome_returns.
    + unfold collect_status, bind, gets. simpl.
      destruct (in_main_thread E); simpl;
        try destruct (handler_truthy (sigint w));
        apply run_outcome_returns.
Qed.
End Returns.

(** ** The outcome of a run and the SIGINT handler *)

Section Outcome.

Variable E : Oracle.

(** C1, as the code has it: once the child has been launched and the run
    has come to its last lines, the collected return code decides first:
    0 is a normal return whatever the [killed] event says; a non-zero code
    raises CheckpointKilledError when [killed] is set and StageCmdFailedError
    when it is not, either one with the command and that code.  So a run
    whose [killed] event is set never raises plain StageCmdFailedError. *)
Theorem run_outcome_retcode_first fuel stage ex c cf kw w r w' n :
  popen_result E (_make_cmd ex c) (trace w ++ [EvPopen (_make_cmd ex c) kw])
  = inr n ->
  _run E fuel stage ex c cf kw w = (r, w') ->
  r <> Diverge ->
  exists code,
    status w' = Some code
    /\ r = outcome_of c code (killed w')
    /\ (code = 0 -> r = Ok tt)
    /\ (code <> 0 -> killed w' = true ->
        r = Raise (CheckpointKilledError c (Some code)))
    /\ (code <> 0 -> killed w' = false ->
        r = Raise (StageCmdFailedError c (Some code)))
    /\ (killed w' = true -> forall rc, r <> Raise (StageCmdFailedError c rc)).
Proof.
  intros Hlaunch Hrun Hret.
  destruct (run_shape E fuel stage ex c cf kw w r w' Hrun Hret)
    as [l [_ [_ Hcase]]].
  rewrite Hlaunch in Hcase. destruct Hcase as [code [Hp [Hr _]]].
  exists code. unfold status. rewrite Hp. simpl.
  split; [reflexivity |]. split; [exact Hr |].
  unfold outcome_of in Hr.
  destruct (Z.eqb code 0) eqn:Hz.
  - apply Z.eqb_eq in Hz. subst code.
    repeat split; try congruence.
  - apply Z.eqb_neq in Hz.
    destruct (killed w'); repeat split; try congruence.
Qed.

(** [_run] and the SIGINT disposition: a thread other than the main thread
    never calls [signal.signal]; a launch that fails leaves the handler
    alone; after a launch that succeeds, on return and on raise alike, the
    handler found on entry is back in place provided it is truthy, and
    SIGINT is left ignored when the main thread found a falsy one. *)
Lemma run_sigint_scope fuel stage ex c cf kw w r w' :
  _run E fuel stage ex c cf kw w = (r, w') ->
  r <> Diverge ->
  (in_main_thread E = false ->
   sigint w' = sigint w /\ filter is_signal (events_since w w') = [])
  /\ (handler_truthy (sigint w) = true -> sigint w' = sigint w)
  /\ (forall e,
        popen_result E (_make_cmd ex c)
                     (trace w ++ [EvPopen (_make_cmd ex c) kw]) = inl e ->
        sigint w' = sigint w /\ filter is_signal (events_since w w') = [])
  /\ (forall n,
        popen_result E (_make_cmd ex c)
                     (trace w ++ [EvPopen (_make_cmd ex c) kw]) = inr n ->
        in_main_thread E = true -> handler_truthy (sigint w) = false ->
        sigint w' = SIG_IGN
        /\ filter is_signal (events_since w w') = [EvSignal SIG_IGN]).
Proof.
  intros Hrun Hret.
  destruct (run_shape E fuel stage ex c cf kw w r w' Hrun Hret)
    as [l [Ht [_ Hcase]]].
  rewrite (events_since_app _ _ _ Ht).
  destruct (popen_result E (_make_cmd ex c)
              (trace w ++ [EvPopen (_make_cmd ex c) kw])) as [e | n].
  - destruct Hcase as [_ [Hs Hf]].
    split; [intros _; auto |]. split; [intros _; exact Hs |].
    split; [intros e' _; auto |]. intros n He. discriminate.
  - destruct Hcase as [code [_ [_ [Hs Hf]]]].
    unfold sigint_after_run in Hs. unfold signal_events_of_run in Hf.
    split; [| split; [| split]].
    + intros Hm. rewrite Hm in Hs, Hf. auto.
    + intros Htr. rewrite Htr in Hs. destruct (in_main_thread E); exact Hs.
    + intros e' He. discriminate.
    + intros n' _ Hm Hfalsy. rewrite Hm, Hfalsy in Hs, Hf. auto.
Qed.

End Outcome.

(** ** Concrete runs *)

(** C1, as the specification words it, fails: the checkpoint callback
    raises, the monitor kills the child and sets [killed], the child's
    return code is 0, and [_run] returns normally instead of raising
    CheckpointKilledError. *)
Lemma killed_run_returns_normally :
  let E := Sample.oracle (Some "/bin/sh") true None 0
                         (Some (OtherException "commit failed")) in
  let res := _run E 10 (Sample.stage (CmdStr "python train.py"))
                  (Some "/bin/sh") "python train.py" (Some (Callable 0))
                  Sample.kwargs (Sample.world Sample.default_int_handler) in
  killed (snd res) = true
  /\ existsb (fun e => match e with EvKilledSet => true | _ => false end)
             (trace (snd res)) = true
  /\ status (snd res) = Some 0
  /\ fst res = Ok tt
  /\ fst res <> outcome_as_specified "python train.py" 0 true.
Proof.
  vm_compute. repeat split; discriminate.
Qed.

(** C6 at the failing input: in the main thread, with SIGINT at [SIG_DFL] on
    entry, [_run] installs [SIG_IGN], the command exits with 0, [_run]
    returns, and SIGINT is still ignored: [SIG_DFL] is falsy, so the
    [finally] block skips the restoring call. *)
Theorem sigint_default_not_restored :
  let E := Sample.oracle (Some "/bin/sh") true None 0 None in
  let w := Sample.world SIG_DFL in
  let res := _run E 0 (Sample.stage (CmdStr "echo A")) (Some "/bin/sh")
                  "echo A" None Sample.kwargs w in
  in_main_thread E = true
  /\ sigint w = SIG_DFL
  /\ fst res = Ok tt
  /\ sigint (snd res) = SIG_IGN
  /\ filter is_signal (trace (snd res)) = [EvSignal SIG_IGN].
Proof.
  vm_compute. repeat split.
Qed.

(** The same run from the handler Python installs at start-up: the handler is
    put back. *)
Lemma sigint_python_handler_restored :
  let E := Sample.oracle (Some "/bin/sh") true None 0 None in
  let w := Sample.world Sample.default_int_handler in
  let res := _run E 0 (Sample.stage (CmdStr "echo A")) (Some "/bin/sh")
                  "echo A" None Sample.kwargs w in
  fst res = Ok tt
  /\ sigint (snd res) = Sample.default_int_handler
  /\ filter is_signal (trace (snd res))
     = [EvSignal SIG_IGN; EvSignal Sample.default_int_handler].
Proof.
  vm_compute. repeat split.
Qed.

(** C9, as the specification words it, fails for a stage without a command:
    the dry run raises AssertionError instead of completing. *)
Lemma dry_run_without_command_fails :
  let E := Sample.oracle (Some "/bin/sh") true None 0 None in
  let res := run_stage E 0 (Sample.stage CmdNone) true false None
                       (Sample.world Sample.default_int_handler) in
  fst res = Raise AssertionError /\ fst res <> Ok tt.
Proof.
  vm_compute. split; [reflexivity | discriminate].
Qed.

(** C4, as the specification words it, fails for a callback that raises
    SystemExit, which [except Exception] does not catch: the monitor finds
    the marker, saves, commits and calls the callback, and then does nothing
    but remove the marker; it logs no failure, kills nobody, leaves
    [killed] unset, and the exception leaves the loop, which does not come
    to its [done.wait]. *)
Lemma system_exit_escapes_the_monitor :
  let E := Scenario.callback_exits in
  let w := Sample.world_with_marker in
  let res := _checkpoint_run E 10 Sample.train (Callable 0) 4242 w in
  call_raises E (Callable 0) [] = Some (SystemExiting "SystemExit")
  /\ fst res = Raise (SystemExiting "SystemExit")
  /\ events_since w (snd res)
     = [EvPoll true; EvLockAcquire; EvSave; EvCommit;
        EvLogDebug "Running checkpoint callback for stage";
        EvCall (Callable 0); EvLockRelease;
        EvLogDebug "Remove checkpoint signal file";
        EvRemove "/repo/.dvc/tmp/DVC_CHECKPOINT"]
  /\ killed (snd res) = false.
Proof.
  vm_compute. repeat split.
Qed.

(** An error of the callback is caught, but the exception that [_kill] raises
    while it is handled is not: the failure is logged, the child is not
    signalled, [killed] stays unset, the marker is removed, and the
    exception of [_kill] leaves the loop. *)
Lemma failed_kill_escapes_the_monitor :
  let E := Scenario.kill_fails in
  let w := Sample.world_with_marker in
  let res := _checkpoint_run E 10 Sample.train (Callable 0) 4242 w in
  fst res = Raise (OtherException "PermissionError")
  /\ events_since w (snd res)
     = [EvPoll true; EvLockAcquire; EvSave; EvCommit;
        EvLogDebug "Running checkpoint callback for stage";
        EvCall (Callable 0); EvLockRelease;
        EvLogException "Error generating checkpoint, stage will be aborted";
        EvLogDebug "Remove checkpoint signal file";
        EvRemove "/repo/.dvc/tmp/DVC_CHECKPOINT"]
  /\ killed (snd res) = false.
Proof.
  vm_compute. repeat split.
Qed.

(** A callback that returns after it has removed the marker itself: the
    [os.remove] of the [finally] block raises FileNotFoundError, which leaves
    the loop. *)
Lemma vanished_marker_escapes_the_monitor :
  let E := Scenario.marker_vanishes in
  let w := Sample.world_with_marker in
  let res := _checkpoint_run E 10 Sample.train (Callable 0) 4242 w in
  fst res = Raise (FileNotFoundError "/repo/.dvc/tmp/DVC_CHECKPOINT")
  /\ killed (snd res) = false
  /\ marker (snd res) = false.
Proof.
  vm_compute. repeat split.
Qed.

(** ** The theorems at concrete inputs *)

Lemma run_outcome_retcode_first_witness :
  let E := Sample.failing_callback (-15) in
  let res := _run E 10 Sample.train (Some "/bin/sh") "python train.py"
                  (Some (Callable 0)) Sample.kwargs
                  (Sample.world Sample.default_int_handler) in
  fst res = Raise (CheckpointKilledError "python train.py" (Some (-15)))
  /\ exists code,
      status (snd res) = Some code
      /\ fst res = outcome_of "python train.py" code (killed (snd res))
      /\ (code = 0 -> fst res = Ok tt)
      /\ (code <> 0 -> killed (snd res) = true ->
          fst res = Raise (CheckpointKilledError "python train.py" (Some code)))
      /\ (code <> 0 -> killed (snd res) = false ->
          fst res = Raise (StageCmdFailedError "python train.py" (Some code)))
      /\ (killed (snd res) = true ->
          forall rc,
            fst res <> Raise (StageCmdFailedError "python train.py" rc)).
Proof.
  intros E res. split; [vm_compute; reflexivity |].
  apply (run_outcome_retcode_first E 10 Sample.train (Some "/bin/sh")
           "python train.py" (Some (Callable 0)) Sample.kwargs
           (Sample.world Sample.default_int_handler) (fst res) (snd res)
           4242%nat).
  - vm_compute; reflexivity.
  - vm_compute; reflexivity.
  - vm_compute; discriminate.
Defined.

Lemma run_stage_cache_short_circuit_witness :
  let E := Sample.plain None 0 in
  let w := Sample.world Sample.default_int_handler in
  run_stage E 0 Sample.two_commands false false None w
  = (Ok tt, logged [EvRestore] w).
Proof.
  intros E w.
  apply (proj2 (run_stage_cache_short_circuit E 0 Sample.two_commands
                  false false None w));
    reflexivity.
Defined.

Lemma restore_errors_propagate_witness :
  let E := Sample.plain (Some (OtherException "cache is corrupted")) 0 in
  let w := Sample.world Sample.default_int_handler in
  run_stage E 0 Sample.two_commands false false None w
  = (Raise (OtherException "cache is corrupted"), logged [EvRestore] w).
Proof.
  intros E w.
  apply (proj1 (restore_errors_propagate E 0 Sample.two_commands w
                  (OtherException "cache is corrupted") eq_refl));
    reflexivity.
Defined.

Lemma dry_run_displays_only_witness :
  let E := Sample.plain None 0 in
  let w := Sample.world Sample.default_int_handler in
  run_stage E 0 Sample.two_commands true false None w
  = (Ok tt, logged [EvLogInfo "Running stage 'train':";
                    EvDisplay "exit 3"; EvDisplay "echo B"] w).
Proof.
  intros E w.
  apply (proj2 (dry_run_displays_only E 0 Sample.two_commands false None w)).
  reflexivity.
Defined.

Lemma cmd_run_requires_command_witness :
  let E := Sample.plain None 0 in
  let w := Sample.world Sample.default_int_handler in
  _enforce_cmd_list (cmd Sample.train) = Ok ["python train.py"]
  /\ cmd_run E 0 (Sample.stage CmdNone) false None w
     = (Raise AssertionError, logged [EvLogInfo "Running stage 'train':"] w).
Proof.
  intros E w. split.
  - apply (proj1 (cmd_run_requires_command E 0 Sample.train false None w)
                 "python train.py").
    + reflexivity.
    + discriminate.
  - apply (proj2 (cmd_run_requires_command E 0 (Sample.stage CmdNone)
                    false None w)).
    left. reflexivity.
Defined.

Lemma commands_run_in_order_witness :
  let E := Sample.plain (Some RunCacheNotFoundError) 3 in
  let w := Sample.world Sample.default_int_handler in
  let res := run_stage E 0 Sample.two_commands false false None w in
  let evs := events_since w (snd res) in
  spawned evs = [Argv ["/bin/sh"; "-c"; "exit 3"]]
  /\ exit_codes evs = [3]
  /\ fst res = Raise (StageCmdFailedError "exit 3" (Some 3))
  /\ exists head l,
      evs = head ++ l ++ [EvLockAcquire]
      /\ existsb is_process_event head = false
      /\ ran_in_order E (Some "/bin/sh")
                      (prepare_kwargs E Sample.two_commands None)
                      (trace w ++ head) ["exit 3"; "echo B"] l (fst res).
Proof.
  intros E w res evs.
  split; [vm_compute; reflexivity |].
  split; [vm_compute; reflexivity |].
  split; [vm_compute; reflexivity |].
  apply (commands_run_in_order E 0 Sample.two_commands w
           RunCacheNotFoundError (fst res) (snd res)).
  - reflexivity.
  - reflexivity.
  - reflexivity.
  - vm_compute; reflexivity.
Defined.

Lemma marker_removed_after_observation_witness :
  let E := Sample.failing_callback 0 in
  let w := Sample.world_with_marker in
  let res := _checkpoint_tick E Sample.train (Callable 0) 4242 w in
  marker (snd res) = false.
Proof.
  intros E w res.
  pose (polled := os_path_exists E (signal_path E Sample.train) w).
  pose (called := _run_callback E Sample.train (Callable 0) (snd polled)).
  apply (marker_removed_after_observation E Sample.train (Callable 0) 4242 w
           (snd polled) (fst called) (snd called) (fst res) (snd res)).
  - vm_compute; reflexivity.
  - vm_compute; reflexivity.
  - vm_compute; reflexivity.
Defined.

Lemma callback_error_kills_and_continues_witness :
  let E := Sample.failing_callback 0 in
  let w := Sample.world_with_marker in
  exists w',
    _checkpoint_tick E Sample.train (Callable 0) 4242 w = (Ok tt, w')
    /\ killed w' = true /\ marker w' = false.
Proof.
  intros E w.
  pose (polled := os_path_exists E (signal_path E Sample.train) w).
  pose (called := _run_callback E Sample.train (Callable 0) (snd polled)).
  destruct (callback_error_kills_and_continues E 0 Sample.train (Callable 0)
              4242 w (snd polled) (OtherException "commit failed")
              (snd called))
    as [Hcaught _].
  - vm_compute; reflexivity.
  - vm_compute; reflexivity.
  - destruct Hcaught as [w' [Ht [_ [Hk [Hm _]]]]].
    + reflexivity.
    + reflexivity.
    + reflexivity.
    + exists w'. auto.
Defined.

(** * More of the module *)

(** ** What the command loop adds to a history *)

Lemma count_app f l1 l2 : count f (l1 ++ l2) = (count f l1 + count f l2)%nat.
Proof. unfold count. rewrite filter_app, length_app. reflexivity. Qed.

Lemma only_filter_nil (allowed f : event -> bool) (l : list event) :
  (forall e, allowed e = true -> f e = false) ->
  forallb allowed l = true -> filter f l = [].
Proof.
  intros Hf. induction l as [| e l IH]; simpl; [reflexivity |].
  intros H. apply andb_true_iff in H. destruct H as [He Hl].
  rewrite (Hf _ He). apply IH, Hl.
Qed.

Lemma run_parts E fuel stage ex c cf kw w :
  _run E fuel stage ex c cf kw w
  = (try_finally
       (pr <- subprocess_Popen E (_make_cmd ex c) kw ;;
        after_launch E fuel stage cf pr)
       restore_handler ;;
     _run_outcome c) (run_entry w).
Proof. reflexivity. Qed.

Lemma popen_exact E c kw w :
  subprocess_Popen E c kw w
  = (match popen_result E c (trace w ++ [EvPopen c kw]) with
     | inl e => Raise e
     | inr n => Ok {| pid := n; returncode := None |}
     end,
     logged [EvPopen c kw] w).
Proof.
  unfold subprocess_Popen, bind, gets, emit. simpl.
  destruct (popen_result E c (trace w ++ [EvPopen c kw])); reflexivity.
Qed.

Section Quiet.

Variable E : Oracle.
Variable allowed : event -> bool.
Hypothesis allowed_quiet : forall e, quiet_event e = true -> allowed e = true.

Ltac quiet_leaf :=
  first [ apply only_emit; apply allowed_quiet; reflexivity
        | apply only_silent; intro; reflexivity ].

Lemma quiet_collect_status : preserves (only allowed) (collect_status E).
Proof. unfold collect_status. frame_rules; quiet_leaf. Qed.

Lemma quiet_checkpoint_tick stage f proc :
  preserves (only allowed) (_checkpoint_tick E stage f proc).
Proof.
  unfold _checkpoint_tick, os_path_exists, os_remove, logger_exception,
    logger_debug, _run_callback, relock_repo, external, _kill, _kill_nt,
    subprocess_call, proc_terminate, proc_wait, acting, logger_debug.
  frame_rules; first [ apply quiet_collect_status | quiet_leaf ].
Qed.

Lemma quiet_checkpoint_run fuel stage f proc :
  preserves (only allowed) (_checkpoint_run E fuel stage f proc).
Proof.
  induction fuel as [| fuel IH]; simpl.
  - refine (@preserves_diverge _ _ _).
  - refine (@preserves_bind _ _ _ _ _ _ _ _);
      [apply quiet_checkpoint_tick | intros _].
    unfold done_wait. frame_rules; try quiet_leaf. exact IH.
Qed.

Lemma quiet_checkpoint_monitor A fuel stage cf proc (body : M A) :
  preserves (only allowed) body ->
  preserves (only allowed) (checkpoint_monitor E fuel stage cf proc body).
Proof.
  intros Hb. unfold checkpoint_monitor, logger_debug.
  frame_rules;
    first [ exact Hb
          | refine (@preserves_thread_run _ _ _ _ _);
            [ apply quiet_checkpoint_run | intro; quiet_leaf ]
          | quiet_leaf ].
Qed.

Lemma quiet_after_launch fuel stage cf pr :
  preserves (only allowed) (after_launch E fuel stage cf pr).
Proof.
  unfold after_launch, signal_signal, proc_communicate.
  frame_rules;
    first [ apply quiet_checkpoint_monitor; apply quiet_collect_status
          | quiet_leaf ].
Qed.

Lemma quiet_restore_handler : preserves (only allowed) restore_handler.
Proof. unfold restore_handler, signal_signal. frame_rules; quiet_leaf. Qed.

Lemma quiet_run_outcome c : preserves (only allowed) (_run_outcome c).
Proof. unfold _run_outcome. frame_rules; quiet_leaf. Qed.

End Quiet.

Section Loop.

Variable E : Oracle.
Variable allowed : event -> bool.
Hypothesis allowed_loop : forall e, loop_event e = true -> allowed e = true.

Lemma allowed_loop_quiet e : quiet_event e = true -> allowed e = true.
Proof.
  unfold quiet_event. intros H. apply andb_true_iff in H.
  apply allowed_loop, H.
Qed.

Lemma loop_run fuel stage exe c cf kw :
  preserves (only allowed) (_run E fuel stage exe c cf kw).
Proof.
  unfold _run, subprocess_Popen.
  change (preserves (only allowed)
            (set_old_handler HandlerNone ;;
             set_p None ;;
             try_finally
               (pr <- (emit (EvPopen (_make_cmd exe c) kw) ;;
                       t <- gets trace ;;
                       match popen_result E (_make_cmd exe c) t with
                       | inl e => raise e
                       | inr n => ret {| pid := n; returncode := None |}
                       end) ;;
                after_launch E fuel stage cf pr)
               restore_handler ;;
             _run_outcome c)).
  frame_rules;
    first [ apply quiet_after_launch; exact allowed_loop_quiet
          | apply quiet_restore_handler; exact allowed_loop_quiet
          | apply quiet_run_outcome
          | apply only_emit; apply allowed_loop; reflexivity
          | apply only_silent; intro; reflexivity ].
Qed.

Lemma loop_cmd_run_loop fuel stage dry cf exe kw cs :
  preserves (only allowed) (cmd_run_loop E fuel stage dry cf exe kw cs).
Proof.
  induction cs as [| c cs IH]; simpl.
  - refine (@preserves_ret _ _ _ _).
  - unfold display_command. frame_rules;
      first [ apply loop_run | exact IH
            | apply only_emit; apply allowed_loop; reflexivity ].
Qed.

End Loop.

(** ** The head of [cmd_run]: the header and the fish warning *)

Section Head.

Variable E : Oracle.

Lemma warn_if_fish_exact ex w :
  warn_if_fish E ex w
  = (Ok tt, logged (if is_fish E ex then [EvWarnFish] else []) w).
Proof.
  unfold warn_if_fish, is_fish. destruct ex as [s |].
  - destruct (String.eqb (PyStr.basename (realpath E s)) "fish"); simpl.
    + reflexivity.
    + unfold ret. rewrite logged_nil. reflexivity.
  - unfold ret. rewrite logged_nil. reflexivity.
Qed.

(** The fish warning is logged at most once in a run of [cmd_run], right
    after the header line and before any command is displayed or launched;
    it is logged exactly when the run is not dry, the stage has a command,
    and the real path of the resolved shell has the basename "fish". *)
Theorem fish_warning_once fuel stage dry cf w r w' :
  cmd_run E fuel stage dry cf w = (r, w') ->
  let warned := negb dry && cmd_truthy (cmd stage)
                && is_fish E (resolved_executable E) in
  exists l,
    events_since w w'
    = EvLogInfo (running_message stage)
        :: (if warned then [EvWarnFish] else []) ++ l
    /\ forallb loop_event l = true
    /\ count is_warn_fish (events_since w w') = (if warned then 1 else 0)%nat.
Proof.
  intros Hrun warned.
  assert (Hcount : forall l,
             forallb loop_event l = true ->
             count is_warn_fish
               (EvLogInfo (running_message stage)
                  :: (if warned then [EvWarnFish] else []) ++ l)
             = (if warned then 1 else 0)%nat).
  { intros l Hl. unfold count. simpl. rewrite filter_app, length_app.
    rewrite (only_filter_nil loop_event is_warn_fish l); [| | exact Hl].
    - destruct warned; reflexivity.
    - intros e He. destruct e; try reflexivity; discriminate. }
  rewrite cmd_run_unfold in Hrun. unfold _enforce_cmd_list in Hrun.
  subst warned. destruct (cmd_truthy (cmd stage)) eqn:Htr.
  - unfold bind at 1 in Hrun. unfold when in Hrun.
    destruct dry; simpl in *.
    + apply (loop_cmd_run_loop E loop_event (fun e H => H)) in Hrun.
      destruct Hrun as [l [Ht Hl]]. simpl in Ht.
      exists l. rewrite <- app_assoc in Ht.
      rewrite (events_since_app _ _ _ Ht).
      split; [reflexivity |]. split; [exact Hl |]. apply (Hcount l Hl).
    + rewrite warn_if_fish_exact in Hrun.
      apply (loop_cmd_run_loop E loop_event (fun e H => H)) in Hrun.
      destruct Hrun as [l [Ht Hl]]. simpl in Ht.
      exists l. rewrite <- !app_assoc in Ht.
      rewrite (events_since_app _ _ _ Ht).
      split; [reflexivity |]. split; [exact Hl |]. apply (Hcount l Hl).
  - inversion Hrun; subst. rewrite andb_false_r. simpl.
    exists nil. rewrite events_since_logged.
    split; [reflexivity |]. split; reflexivity.
Qed.

End Head.

(** ** Displays, launches and exit statuses, in every kind of run *)

#[global] Instance collects_frame n : Frame (collects n).
Proof.
  split.
  - intros w Hn. split; [exact Hn |]. split; [auto |].
    exists nil. rewrite app_nil_r. split; [reflexivity |].
    destruct (status w); reflexivity.
  - intros a b c Hab Hbc Hn.
    destruct (Hab Hn) as [Hb [Sab [l1 [T1 F1]]]].
    destruct (Hbc Hb) as [Hc [Sbc [l2 [T2 F2]]]].
    split; [exact Hc |]. split; [intros code H; apply Sbc, Sab, H |].
    exists (l1 ++ l2). split; [rewrite T2, T1, app_assoc; reflexivity |].
    rewrite filter_app, F1, F2.
    destruct (status a) as [x |] eqn:Sa.
    + rewrite (Sab x eq_refl). reflexivity.
    + destruct (status b) as [y |] eqn:Sb.
      * rewrite (Sbc y eq_refl). reflexivity.
      * reflexivity.
Qed.

Section Steps.

Variable E : Oracle.
Variable n : nat.

Lemma collects_emit e :
  is_run_step e = false -> preserves (collects n) (emit e).
Proof.
  intros He. apply preserves_leaf. intros w Hn.
  unfold collects, current_pid, status in *. simpl.
  split; [exact Hn |]. split; [auto |].
  exists [e]. split; [reflexivity |]. simpl. rewrite He.
  destruct (p w) as [pr |]; [destruct (returncode pr) |]; reflexivity.
Qed.

Lemma collects_silent A (m : M A) :
  (forall w, trace (snd (m w)) = trace w) ->
  (forall w, p (snd (m w)) = p w) ->
  preserves (collects n) m.
Proof.
  intros Ht Hp. apply preserves_leaf. intros w Hn.
  unfold collects, current_pid, status in *. rewrite Hp, Ht.
  split; [exact Hn |]. split; [auto |].
  exists nil. rewrite app_nil_r. split; [reflexivity |].
  destruct (p w) as [pr |]; [destruct (returncode pr) |]; reflexivity.
Qed.

Lemma collects_collect_status : preserves (collects n) (collect_status E).
Proof.
  intros w r w' Hc Hn. unfold collect_status, bind, gets in Hc.
  unfold current_pid, status in *.
  destruct (p w) as [[m rc] |] eqn:Hp; [| discriminate].
  simpl in Hn. injection Hn as ->. simpl in Hc.
  destruct rc as [code |]; simpl in Hc; inversion Hc; subst; clear Hc;
    simpl; rewrite ?Hp; simpl.
  - split; [reflexivity |]. split; [auto |].
    exists nil. rewrite app_nil_r. auto.
  - split; [reflexivity |]. split; [discriminate |].
    eexists. split; reflexivity.
Qed.

Ltac collects_leaf :=
  first [ apply collects_collect_status
        | apply collects_emit; reflexivity
        | apply collects_silent; intro; reflexivity ].

Lemma collects_checkpoint_tick stage f proc :
  preserves (collects n) (_checkpoint_tick E stage f proc).
Proof.
  unfold _checkpoint_tick, os_path_exists, os_remove, logger_exception,
    logger_debug, _run_callback, relock_repo, external, _kill, _kill_nt,
    subprocess_call, proc_terminate, proc_wait, acting, logger_debug.
  frame_rules; collects_leaf.
Qed.

Lemma collects_checkpoint_run fuel stage f proc :
  preserves (collects n) (_checkpoint_run E fuel stage f proc).
Proof.
  induction fuel as [| fuel IH]; simpl.
  - refine (@preserves_diverge _ _ _).
  - refine (@preserves_bind _ _ _ _ _ _ _ _);
      [apply collects_checkpoint_tick | intros _].
    unfold done_wait. frame_rules; try collects_leaf. exact IH.
Qed.

(** The part of [_run] that follows a launch that has succeeded and the
    assignment to [p]. *)
Lemma collects_after_launch fuel stage cf proc c :
  preserves (collects n)
    (try_finally
       (when (in_main_thread E)
             (old <- signal_signal SIG_IGN ;; set_old_handler old) ;;
        set_killed false ;;
        checkpoint_monitor E fuel stage cf proc (proc_communicate E))
       restore_handler ;;
     _run_outcome c).
Proof.
  unfold restore_handler, signal_signal, checkpoint_monitor,
    proc_communicate, _run_outcome, logger_debug.
  frame_rules;
    first [ refine (@preserves_thread_run _ _ _ _ _);
            [ apply collects_checkpoint_run | intro; collects_leaf ]
          | collects_leaf ].
Qed.

End Steps.

Section Launches.

Variable E : Oracle.

(** One [_run]: the launch, and after a launch that has succeeded the exit
    status of the child, collected once; the run returns exactly when that
    status is 0. *)
Lemma run_steps fuel stage ex c cf kw w r w' :
  _run E fuel stage ex c cf kw w = (r, w') ->
  exists l tail,
    trace w' = trace w ++ l
    /\ filter is_run_step l = EvPopen (_make_cmd ex c) kw :: tail
    /\ ((r = Ok tt /\ exists n, tail = [EvExit n 0])
        \/ (exists n code e,
              r = Raise e /\ tail = [EvExit n code] /\ code <> 0
              /\ (e = StageCmdFailedError c (Some code)
                  \/ e = CheckpointKilledError c (Some code)))
        \/ (exists e,
              r = Raise e /\ tail = []
              /\ popen_result E (_make_cmd ex c)
                   (trace w ++ [EvPopen (_make_cmd ex c) kw]) = inl e)
        \/ r = Diverge).
Proof.
  intros Hrun. pose proof Hrun as Hparts. rewrite run_parts in Hparts.
  unfold bind at 1 in Hparts. unfold try_finally in Hparts.
  unfold bind at 1 in Hparts. rewrite popen_exact in Hparts.
  simpl trace in Hparts.
  destruct (popen_result E (_make_cmd ex c)
              (trace w ++ [EvPopen (_make_cmd ex c) kw])) as [e | n]
    eqn:Hlaunch.
  - simpl in Hparts. inversion Hparts; subst; clear Hparts.
    exists [EvPopen (_make_cmd ex c) kw], nil. simpl.
    split; [reflexivity |]. split; [reflexivity |].
    right; right; left. exists e. auto.
  - clear Hparts.
    assert (Hsplit :
      _run E fuel stage ex c cf kw w
      = (try_finally
           (when (in_main_thread E)
                 (old <- signal_signal SIG_IGN ;; set_old_handler old) ;;
            set_killed false ;;
            checkpoint_monitor E fuel stage cf n (proc_communicate E))
           restore_handler ;;
         _run_outcome c)
          {| trace := trace w ++ [EvPopen (_make_cmd ex c) kw];
             sigint := sigint w; marker := marker w;
             p := Some {| pid := n; returncode := None |};
             old_handler := HandlerNone; killed := killed w |}).
    { rewrite run_parts. unfold bind at 1. unfold try_finally at 1.
      unfold bind at 1. rewrite popen_exact. simpl trace. rewrite Hlaunch.
      reflexivity. }
    pose proof Hrun as Hcol. rewrite Hsplit in Hcol.
    apply (collects_after_launch E n fuel stage cf n c) in Hcol.
    destruct (Hcol eq_refl) as [Hpid [_ [l [Ht Hf]]]].
    simpl in Ht, Hf. rewrite <- app_assoc in Ht. simpl in Ht.
    assert (Hsteps : forall tail,
               filter is_run_step l = tail ->
               filter is_run_step (EvPopen (_make_cmd ex c) kw :: l)
               = EvPopen (_make_cmd ex c) kw :: tail).
    { intros tail <-. reflexivity. }
    assert (Hcode : r <> Diverge ->
              exists code, filter is_run_step l = [EvExit n code]
                           /\ r = outcome_of c code (killed w')).
    { intros Hr.
      destruct (run_shape E fuel stage ex c cf kw w r w' Hrun Hr)
        as [l' [_ [_ Hcase]]].
      rewrite Hlaunch in Hcase. destruct Hcase as [code [Hp [Ho _]]].
      exists code. split; [| exact Ho].
      unfold status in Hf. rewrite Hp in Hf. exact Hf. }
    destruct r as [[] | e |].
    + destruct Hcode as [code [Hl Ho]]; [discriminate |].
      exists (EvPopen (_make_cmd ex c) kw :: l), [EvExit n code].
      split; [exact Ht |]. split; [apply Hsteps, Hl |].
      left. split; [reflexivity |]. exists n.
      unfold outcome_of in Ho. destruct (Z.eqb code 0) eqn:Hz.
      * apply Z.eqb_eq in Hz. subst code. reflexivity.
      * destruct (killed w'); discriminate.
    + destruct Hcode as [code [Hl Ho]]; [discriminate |].
      exists (EvPopen (_make_cmd ex c) kw :: l), [EvExit n code].
      split; [exact Ht |]. split; [apply Hsteps, Hl |].
      right; left. exists n, code, e.
      unfold outcome_of in Ho. destruct (Z.eqb code 0) eqn:Hz;
        [discriminate |].
      apply Z.eqb_neq in Hz.
      destruct (killed w'); inversion Ho; subst; auto.
    + eexists (EvPopen (_make_cmd ex c) kw :: l), _.
      split; [exact Ht |]. split; [apply Hsteps; reflexivity |].
      right; right; right. reflexivity.
Qed.

Lemma loop_steps fuel stage cf ex kw cs w r w' :
  cmd_run_loop E fuel stage false cf ex kw cs w = (r, w') ->
  exists l,
    trace w' = trace w ++ l
    /\ stepped E ex kw cs (filter is_run_step l) r.
Proof.
  revert w r w'. induction cs as [| c cs IH]; intros w r w'; simpl.
  - intros H; inversion H; subst. exists nil. rewrite app_nil_r.
    split; [reflexivity | constructor].
  - unfold bind at 1 2, display_command. rewrite emit_logged.
    destruct (_run E fuel stage ex c cf kw (logged [EvDisplay c] w))
      as [r1 w1] eqn:Hr.
    destruct (run_steps fuel stage ex c cf kw _ _ _ Hr)
      as [l1 [tail [Ht1 [Hl1 Hcase]]]]. simpl in Ht1.
    rewrite <- app_assoc in Ht1. simpl in Ht1.
    destruct Hcase as [[-> [n ->]]
                      | [[n [code [e [-> [-> [Hne He]]]]]]
                        | [[e [-> [-> Hl]]] | ->]]].
    + intros Hloop. destruct (IH _ _ _ Hloop) as [l2 [Ht2 Hst]].
      exists (EvDisplay c :: l1 ++ l2).
      split; [rewrite Ht2, Ht1, <- !app_assoc; reflexivity |].
      simpl. rewrite filter_app, Hl1. simpl. constructor. exact Hst.
    + intros H; inversion H; subst; clear H.
      exists (EvDisplay c :: l1). split; [exact Ht1 |].
      simpl. rewrite Hl1. apply st_failed; assumption.
    + intros H; inversion H; subst; clear H.
      exists (EvDisplay c :: l1). split; [exact Ht1 |].
      simpl. rewrite Hl1. eapply st_not_launched. exact Hl.
    + intros H; inversion H; subst; clear H.
      exists (EvDisplay c :: l1). split; [exact Ht1 |].
      simpl. rewrite Hl1. apply st_unfinished.
Qed.

(** In every run of [cmd_run] that is not dry (forced, on a cache miss, or
    with a checkpoint callback) the commands are run in their declared
    order: each is displayed, then its child is launched with the composed
    command and the keyword arguments [prepare_kwargs] built, then the exit
    status of the child is collected, once, before the next command is
    displayed.  The next command is run after an exit status of 0 and only
    then: a normal return means that every command has run and exited with
    0; at another status the run ends with StageCmdFailedError or
    CheckpointKilledError, which carries that command and that status; at a
    launch that raises it ends with what the launch raised. *)
Theorem displays_and_launches_in_order fuel stage cf w r w' :
  cmd_run E fuel stage false cf w = (r, w') ->
  cmd_truthy (cmd stage) = true ->
  stepped E (resolved_executable E) (prepare_kwargs E stage cf)
          (commands_of (cmd stage))
          (filter is_run_step (events_since w w')) r.
Proof.
  intros Hrun Htr. rewrite cmd_run_unfold in Hrun.
  unfold _enforce_cmd_list in Hrun. rewrite Htr in Hrun.
  fold (commands_of (cmd stage)) in Hrun.
  unfold bind at 1 in Hrun. unfold when in Hrun. simpl in Hrun.
  rewrite warn_if_fish_exact in Hrun.
  destruct (loop_steps _ _ _ _ _ _ _ _ _ Hrun) as [l [Ht Hst]].
  simpl in Ht. rewrite <- !app_assoc in Ht.
  rewrite (events_since_app _ _ _ Ht). simpl.
  rewrite filter_app.
  destruct (is_fish E (resolved_executable E)); exact Hst.
Qed.

End Launches.

(** ** The launch that fails, and the window of SIGINT suppression *)

Section Window.

Variable E : Oracle.

(** When [Popen] raises, [_run] raises the same exception and has done
    nothing but the launch attempt: the SIGINT handler is not touched, no
    monitor is started, nothing is waited for, and [p] stays [None]. *)
Theorem launch_error_propagates fuel stage ex c cf kw w e :
  popen_result E (_make_cmd ex c) (trace w ++ [EvPopen (_make_cmd ex c) kw])
  = inl e ->
  _run E fuel stage ex c cf kw w
  = (Raise e, logged [EvPopen (_make_cmd ex c) kw] (run_entry w)).
Proof.
  intros Hl. rewrite run_parts.
  unfold bind at 1. unfold try_finally. unfold bind at 1.
  rewrite popen_exact. simpl trace. rewrite Hl. reflexivity.
Qed.

(** After a launch that succeeds, the SIGINT traffic of [_run] frames all the
    rest: in the main thread SIG_IGN is installed right after the launch,
    before the monitor starts and before the wait; the handler found on
    entry, when it is truthy, is put back as the very last thing, after
    the monitor is joined; nothing in between touches the handler.  Another
    thread makes no call of [signal.signal] at all. *)
Theorem sigint_suppression_window fuel stage ex c cf kw w r w' n :
  popen_result E (_make_cmd ex c) (trace w ++ [EvPopen (_make_cmd ex c) kw])
  = inr n ->
  _run E fuel stage ex c cf kw w = (r, w') ->
  r <> Diverge ->
  exists l,
    filter is_signal l = []
    /\ events_since w w'
       = EvPopen (_make_cmd ex c) kw
           :: (if in_main_thread E then [EvSignal SIG_IGN] else [])
           ++ l
           ++ (if in_main_thread E && handler_truthy (sigint w)
               then [EvSignal (sigint w)] else []).
Proof.
  intros Hl. unfold _run, subprocess_Popen, signal_signal, when.
  unfold try_finally, bind, gets, ret, raise, emit, set_p, set_sigint,
    set_old_handler, set_killed.
  simpl. rewrite Hl. simpl.
  destruct (in_main_thread E); simpl;
    match goal with |- context [checkpoint_monitor E fuel stage cf n ?b ?wa] =>
      destruct (checkpoint_monitor E fuel stage cf n b wa) as [rb wb] eqn:Hb
    end;
    (apply monitored_wait in Hb; [| reflexivity]);
    (destruct Hb as [-> | [-> [Hs [Ho [[code Hp] [l [Ht [Hl1 Hl2]]]]]]]];
     [intros H Hd; inversion H; subst; congruence |]);
    simpl in *.
  - rewrite Ho. destruct (handler_truthy (sigint w)) eqn:Htr.
    + rewrite (run_outcome_spec c _ n code) by exact Hp.
      intros H _; inversion H; subst; clear H.
      exists l. split; [exact Hl1 |].
      apply events_since_app. simpl. rewrite Ht, <- !app_assoc. reflexivity.
    + rewrite (run_outcome_spec c _ n code) by exact Hp.
      intros H _; inversion H; subst; clear H.
      exists l. split; [exact Hl1 |].
      apply events_since_app. rewrite Ht, <- !app_assoc, app_nil_r.
      reflexivity.
  - rewrite Ho. simpl.
    rewrite (run_outcome_spec c _ n code) by exact Hp.
    intros H _; inversion H; subst; clear H.
    exists l. split; [exact Hl1 |].
    apply events_since_app. rewrite Ht, <- !app_assoc, app_nil_r.
    reflexivity.
Qed.

End Window.

(** ** The monitor loop as a whole *)

Lemma count_cons f e l :
  count f (e :: l) = ((if f e then 1 else 0) + count f l)%nat.
Proof. unfold count. simpl. destruct (f e); reflexivity. Qed.

Lemma count_nil f : count f [] = 0%nat.
Proof. reflexivity. Qed.

Section LoopInvariants.

Variable E : Oracle.

Lemma attempt_events f t :
  let l := snd (callback_attempt E f t) in
  l = [EvLockAcquire; EvSave; EvLockRelease]
  \/ l = [EvLockAcquire; EvSave; EvCommit; EvLockRelease]
  \/ l = [EvLockAcquire; EvSave; EvCommit;
          EvLogDebug "Running checkpoint callback for stage"; EvCall f;
          EvLockRelease].
Proof.
  unfold callback_attempt.
  destruct (save_raises E _); [auto |].
  destruct (commit_raises E _); auto.
Qed.

Lemma kill_events_shape proc q t :
  let l := kill_events E proc q t in
  (exists argv, l = [EvSubprocessCall argv])
  \/ l = [EvTerminate proc]
  \/ exists n code, l = [EvTerminate proc; EvExit n code].
Proof.
  unfold kill_events. destruct (String.eqb (os_name E) "nt"); [eauto |].
  destruct q as [[n rc] |]; [destruct rc |]; simpl; eauto.
Qed.

(** The [try] statement of a tick: one callback attempt, no poll, no wait, no
    removal; it kills and sets [killed] together or not at all; and what is
    pending at its end was raised by the callback attempt and is not an
    [Exception], or was raised by [_kill]. *)
Lemma tick_body_summary f proc q t :
  let b := tick_body E f proc q t in
  count is_poll (added b) = 0%nat
  /\ count is_found (added b) = 0%nat
  /\ filter is_done_wait (added b) = []
  /\ count is_save (added b) = 1%nat
  /\ count is_remove (added b) = 0%nat
  /\ count is_kill_call (added b) = count is_killed_set (added b)
  /\ existsb is_killed_set (added b) = flagged b
  /\ (forall e, pending b = Some e ->
        (isinstance_Exception e = false
         /\ fst (callback_attempt E f t) = Some e)
        \/ exists t', kill_raises E t' = Some e).
Proof.
  unfold tick_body.
  destruct (attempt_events f t) as [Ha | [Ha | Ha]]; rewrite Ha;
    (destruct (fst (callback_attempt E f t)) as [e |];
     [destruct (isinstance_Exception e) eqn:Hexc;
      [match goal with |- context [kill_raises E ?t2] =>
         destruct (kill_raises E t2) as [ek |] eqn:Hkr;
         [| destruct (kill_events_shape proc q t2)
              as [[argv Hkl] | [Hkl | [n [code Hkl]]]];
            rewrite Hkl]
       end |] |]);
    cbn [pending added flagged];
    repeat (split; [reflexivity |]);
    intros e' He'; try discriminate; injection He' as <-; eauto.
Qed.

(** One tick: it polls once, and when it found the marker it made one
    callback attempt and one removal; it kills and sets [killed] together
    or not at all. *)
Lemma tick_summary stage f proc w r w' :
  _checkpoint_tick E stage f proc w = (r, w') ->
  exists l,
    trace w' = trace w ++ l
    /\ (r = Ok tt \/ exists e, r = Raise e /\ leaves_monitor E stage f e)
    /\ count is_poll l = 1%nat
    /\ filter is_done_wait l = []
    /\ count is_save l = count is_found l
    /\ count is_remove l = count is_found l
    /\ count is_kill_call l = count is_killed_set l
    /\ killed w' = killed w || existsb is_killed_set l.
Proof.
  intros Htick.
  destruct (marker w || marker_created E (trace w)) eqn:Hobs.
  - destruct (tick_observed E stage f proc w Hobs) as [wt [Ht [Htr [_ Hk]]]].
    rewrite Ht in Htick. injection Htick as Hr Hwt. subst wt. clear Ht.
    destruct (tick_body_summary f proc (p w) (trace w ++ [EvPoll true]))
      as [Bp [Bn [Bd [Bs [Br [Bk [Bf Be]]]]]]].
    rewrite <- Htr in Hr. rewrite <- app_assoc in Htr.
    eexists. split; [exact Htr |].
    split.
    { destruct (marker_gone E (trace w')) eqn:Hg.
      - right. eexists. split; [symmetry; exact Hr |].
        right; right. split; [reflexivity | eauto].
      - destruct (pending _) as [e |] eqn:Hp; [| left; auto].
        right. exists e. split; [auto |].
        destruct (Be e eq_refl) as [[He1 He2] | [t' Ht']].
        + left. eauto.
        + right; left. eauto. }
    rewrite !count_app, !filter_app, !existsb_app, Bp, Bn, Bs, Br, Bk, Bd, Bf.
    unfold count. simpl. rewrite orb_false_r.
    repeat split; auto; lia.
  - destruct (tick_unobserved E stage f proc w Hobs) as [Ht Hm].
    rewrite Ht in Htick. inversion Htick; subst; clear Htick.
    exists [EvPoll false]. simpl. rewrite orb_false_r.
    repeat split; auto.
Qed.

Lemma loop_summary fuel stage f proc w r w' :
  _checkpoint_run E fuel stage f proc w = (r, w') ->
  exists l,
    trace w' = trace w ++ l
    /\ count is_save l = count is_found l
    /\ count is_remove l = count is_found l
    /\ count is_kill_call l = count is_killed_set l
    /\ killed w' = killed w || existsb is_killed_set l
    /\ (r = Ok tt ->
        exists k,
          filter is_done_wait l
          = repeat (EvDoneWait false) k ++ [EvDoneWait true]
          /\ count is_poll l = S k)
    /\ (forall e, r = Raise e -> leaves_monitor E stage f e).
Proof.
  revert w r w'. induction fuel as [| fuel IH]; intros w r w'; simpl.
  - intros H; inversion H; subst. exists nil. rewrite app_nil_r.
    rewrite orb_false_r. repeat split; try congruence; discriminate.
  - unfold bind at 1.
    destruct (_checkpoint_tick E stage f proc w) as [r1 w1] eqn:Ht.
    destruct (tick_summary stage f proc w r1 w1 Ht)
      as [l1 [Ht1 [Hr1 [Hp1 [Hd1 [Hs1 [Hrm1 [Hk1 Hf1]]]]]]]].
    destruct Hr1 as [-> | [e [-> Hexc]]].
    + unfold bind, done_wait, gets, emit. simpl.
      destruct (stop_requested E (trace w1)) eqn:Hstop.
      * intros H; inversion H; subst; clear H. simpl.
        exists (l1 ++ [EvDoneWait true]).
        split; [rewrite Ht1, <- app_assoc; reflexivity |].
        rewrite !count_app, existsb_app, filter_app, Hd1. simpl.
        rewrite !count_cons, !count_nil. simpl.
        rewrite orb_false_r, !Nat.add_0_r.
        repeat split; try assumption; try discriminate.
        intros _. exists 0%nat. split; [reflexivity | exact Hp1].
      * intros Hloop. apply IH in Hloop.
        destruct Hloop as [l2 [Ht2 [Hs2 [Hrm2 [Hk2 [Hf2 [Hok2 He2]]]]]]].
        simpl in Ht2, Hf2.
        exists (l1 ++ EvDoneWait false :: l2).
        split; [rewrite Ht2, Ht1, <- !app_assoc; reflexivity |].
        rewrite !count_app, !count_cons, existsb_app, filter_app, Hd1.
        simpl. rewrite Hf2, Hf1, orb_assoc.
        repeat split; try lia; try assumption; try reflexivity.
        intros Hr. destruct (Hok2 Hr) as [k [Hw Hp]].
        exists (S k). split; [simpl; rewrite Hw; reflexivity | lia].
    + intros H; inversion H; subst; clear H.
      exists l1. repeat split; try assumption; try discriminate.
      intros e' He'. inversion He'; subst. exact Hexc.
Qed.

(** In a run of the monitor loop, whatever its outcome, every poll that
    finds the marker is followed by exactly one callback attempt and exactly
    one removal of the marker: findings, attempts and removals are equal in
    number. *)
Theorem monitor_handles_each_marker_once fuel stage f proc w r w' :
  _checkpoint_run E fuel stage f proc w = (r, w') ->
  let evs := events_since w w' in
  count is_save evs = count is_found evs
  /\ count is_remove evs = count is_found evs.
Proof.
  intros Hrun evs. destruct (loop_summary _ _ _ _ _ _ _ Hrun)
    as [l [Ht [Hs [Hrm _]]]].
  unfold evs. rewrite (events_since_app _ _ _ Ht). auto.
Qed.

(** The monitor never clears [killed]: after the loop the flag is set exactly
    when it was set before or the loop has set it; and the loop sets it as
    many times as it kills the child, never one without the other. *)
Theorem monitor_kills_and_flags_together fuel stage f proc w r w' :
  _checkpoint_run E fuel stage f proc w = (r, w') ->
  let evs := events_since w w' in
  killed w' = killed w || existsb is_killed_set evs
  /\ count is_kill_call evs = count is_killed_set evs.
Proof.
  intros Hrun evs. destruct (loop_summary _ _ _ _ _ _ _ Hrun)
    as [l [Ht [_ [_ [Hk [Hf _]]]]]].
  unfold evs. rewrite (events_since_app _ _ _ Ht). auto.
Qed.

(** The loop returns at the first [done.wait(1)] that finds the stop request
    and at no other point: when it has returned, all its waits but the last
    found no request, the last one found it, and it has polled exactly once
    before each wait.  An exception that leaves the loop is one of three:
    one that the callback attempt raised and that is not an [Exception],
    one that [_kill] raised, or the FileNotFoundError of an [os.remove] that
    found the marker gone. *)
Theorem monitor_returns_at_stop_request fuel stage f proc w r w' :
  _checkpoint_run E fuel stage f proc w = (r, w') ->
  let evs := events_since w w' in
  (r = Ok tt ->
   exists k,
     filter is_done_wait evs
     = repeat (EvDoneWait false) k ++ [EvDoneWait true]
     /\ count is_poll evs = S k)
  /\ (forall e, r = Raise e ->
        (isinstance_Exception e = false
         /\ exists t, fst (callback_attempt E f t) = Some e)
        \/ (exists t, kill_raises E t = Some e)
        \/ (e = FileNotFoundError (signal_path E stage)
            /\ exists t, marker_gone E t = true)).
Proof.
  intros Hrun evs. destruct (loop_summary _ _ _ _ _ _ _ Hrun)
    as [l [Ht [_ [_ [_ [_ [Hok He]]]]]]].
  unfold evs. rewrite (events_since_app _ _ _ Ht). auto.
Qed.

End LoopInvariants.

(** ** Checkpoints that succeed *)

Section Success.

Variable E : Oracle.
Variable f : callable.
Hypothesis save_returns : forall t, save_raises E t = None.
Hypothesis commit_returns : forall t, commit_raises E t = None.
Hypothesis call_returns : forall t, call_raises E f t = None.

Lemma attempt_succeeds t :
  callback_attempt E f t
  = (None, [EvLockAcquire; EvSave; EvCommit;
            EvLogDebug "Running checkpoint callback for stage"; EvCall f;
            EvLockRelease]).
Proof.
  unfold callback_attempt.
  rewrite save_returns, commit_returns, call_returns. reflexivity.
Qed.

Lemma tick_succeeds stage proc w r w' :
  _checkpoint_tick E stage f proc w = (r, w') ->
  (r = Ok tt
   \/ (r = Raise (FileNotFoundError (signal_path E stage))
       /\ marker_gone E (trace w') = true))
  /\ killed w' = killed w
  /\ exists l, trace w' = trace w ++ l
               /\ count is_kill_call l = 0%nat
               /\ count is_call l = count is_found l.
Proof.
  intros Htick.
  destruct (marker w || marker_created E (trace w)) eqn:Hobs.
  - destruct (tick_observed E stage f proc w Hobs) as [wt [Ht [Htr [_ Hk]]]].
    rewrite Ht in Htick. injection Htick as Hr Hwt. subst wt. clear Ht.
    revert Hr Htr Hk. unfold tick_body. rewrite attempt_succeeds.
    cbn [fst snd pending added flagged]. intros Hr Htr Hk.
    rewrite <- Htr in Hr. rewrite orb_false_r in Hk.
    split; [| split; [exact Hk |]].
    + destruct (marker_gone E (trace w')); subst r; auto.
    + rewrite <- app_assoc in Htr. eexists. split; [exact Htr |].
      split; reflexivity.
  - destruct (tick_unobserved E stage f proc w Hobs) as [Ht _].
    rewrite Ht in Htick. inversion Htick; subst.
    split; [left; reflexivity |]. split; [reflexivity |].
    exists [EvPoll false]. repeat split.
Qed.

(** When the saving, the committing and the checkpoint callback never raise,
    the monitor loop calls the callback once for each poll that finds the
    marker, never kills the child and leaves [killed] as it was; the one
    exception that can leave the loop is the FileNotFoundError of an
    [os.remove] that found the marker gone. *)
Theorem successful_checkpoints_never_kill fuel stage proc w r w' :
  _checkpoint_run E fuel stage f proc w = (r, w') ->
  let evs := events_since w w' in
  count is_call evs = count is_found evs
  /\ count is_kill_call evs = 0%nat
  /\ killed w' = killed w
  /\ (r = Ok tt \/ r = Diverge
      \/ (r = Raise (FileNotFoundError (signal_path E stage))
          /\ marker_gone E (trace w') = true)).
Proof.
  intros Hrun evs.
  assert (H : exists l, trace w' = trace w ++ l
                        /\ count is_call l = count is_found l
                        /\ count is_kill_call l = 0%nat
                        /\ killed w' = killed w
                        /\ (r = Ok tt \/ r = Diverge
                            \/ (r = Raise (FileNotFoundError
                                             (signal_path E stage))
                                /\ marker_gone E (trace w') = true))).
  { clear evs. revert w r w' Hrun.
    induction fuel as [| fuel' IH]; intros w r w'; simpl.
    - intros H; inversion H; subst. exists nil. rewrite app_nil_r.
      repeat split; auto.
    - unfold bind at 1.
      destruct (_checkpoint_tick E stage f proc w) as [r1 w1] eqn:Ht.
      destruct (tick_succeeds stage proc w r1 w1 Ht)
        as [Hr1 [Hk1 [l1 [Ht1 [Hc1 Hn1]]]]].
      destruct Hr1 as [-> | [-> Hg]].
      + unfold bind, done_wait, gets, emit. simpl.
        destruct (stop_requested E (trace w1)).
        * intros H; inversion H; subst; clear H. simpl.
          exists (l1 ++ [EvDoneWait true]).
          split; [rewrite Ht1, <- app_assoc; reflexivity |].
          rewrite !count_app, !count_cons, !count_nil. simpl.
          repeat split; auto; lia.
        * intros Hloop. apply IH in Hloop.
          destruct Hloop as [l2 [Ht2 [Hc2 [Hn2 [Hk2 Hr2]]]]].
          simpl in Ht2, Hk2.
          exists (l1 ++ EvDoneWait false :: l2).
          split; [rewrite Ht2, Ht1, <- !app_assoc; reflexivity |].
          rewrite !count_app, !count_cons. simpl.
          repeat split; try lia; try congruence; auto.
      + intros H; inversion H; subst; clear H.
        exists l1. repeat split; auto. }
  destruct H as [l [Ht H]]. unfold evs.
  rewrite (events_since_app _ _ _ Ht). exact H.
Qed.

End Success.

(** ** Killing the child, the callback and the context manager *)

Section Pieces.

Variable E : Oracle.

(** [_run_callback] saves, commits and calls the callback in that order and
    stops at the first of the three that raises, raising the same
    exception: when [stage.save] raises, nothing is committed or called;
    when [stage.commit] raises, nothing is called; the callback is called
    exactly when both have returned, once, and what it raises is raised;
    [_run_callback] returns exactly when none of the three has raised. *)
Theorem callback_only_after_save_and_commit stage f w r w' :
  _run_callback E stage f w = (r, w') ->
  let steps := filter (fun e => is_save e || is_commit e || is_call e)
                      (events_since w w') in
  let saved := trace w ++ [EvLockAcquire; EvSave] in
  let committed := saved ++ [EvCommit] in
  let called :=
    committed ++ [EvLogDebug "Running checkpoint callback for stage";
                  EvCall f] in
  match save_raises E saved with
  | Some e => r = Raise e /\ steps = [EvSave]
  | None =>
      match commit_raises E committed with
      | Some e => r = Raise e /\ steps = [EvSave; EvCommit]
      | None =>
          steps = [EvSave; EvCommit; EvCall f]
          /\ r = match call_raises E f called with
                 | Some e => Raise e
                 | None => Ok tt
                 end
      end
  end.
Proof.
  rewrite run_callback_attempt. intros H; inversion H; subst; clear H.
  rewrite events_since_logged. unfold callback_attempt.
  destruct (save_raises E (trace w ++ [EvLockAcquire; EvSave])) as [e |]
    eqn:Hs; simpl.
  - split; reflexivity.
  - rewrite <- !app_assoc. simpl.
    destruct (commit_raises E (trace w ++ [EvLockAcquire; EvSave; EvCommit]))
      as [e |] eqn:Hc; simpl.
    + split; reflexivity.
    + split; [reflexivity |].
      destruct (call_raises E f _) as [e |]; reflexivity.
Qed.

Lemma thread_run_result target w r w' :
  thread_run target w = (r, w') -> r = Ok tt \/ r = Diverge.
Proof.
  unfold thread_run. destruct (target w) as [[[] | e |] w1];
    intros H; inversion H; auto.
Qed.

(** The context manager with a callback runs the body of the [with]
    statement exactly once, after the monitor thread is started, and hands
    on what the body returns or raises; [done.set()] and the join are the
    last two things done, also when the body raises.  An exception in the
    monitor thread does not reach the body. *)
Theorem monitor_context_passes_body_outcome
        (A : Type) fuel stage f proc (body : M A) w r w' :
  checkpoint_monitor E fuel stage (Some f) proc body w = (r, w') ->
  r <> Diverge ->
  exists wm wb,
    thread_run (_checkpoint_run E fuel stage f proc)
               (logged [EvThreadStart]
                  (logged [EvLogDebug "Monitoring checkpoint stage"] w))
    = (Ok tt, wm)
    /\ body wm = (r, wb)
    /\ w' = logged [EvThreadJoin] (logged [EvDoneSet] wb).
Proof.
  unfold checkpoint_monitor, logger_debug.
  unfold try_finally, bind, emit. simpl.
  fold (logged [EvLogDebug "Monitoring checkpoint stage"] w).
  match goal with |- context [thread_run ?t ?w0] =>
    change w0
      with (logged [EvThreadStart]
              (logged [EvLogDebug "Monitoring checkpoint stage"] w));
    destruct (thread_run t
                (logged [EvThreadStart]
                   (logged [EvLogDebug "Monitoring checkpoint stage"] w)))
      as [rm wm] eqn:Hm
  end.
  destruct (thread_run_result _ _ _ _ Hm) as [-> | ->].
  - destruct (body wm) as [rb wb] eqn:Hb.
    destruct rb as [a | e |]; intros H Hr; inversion H; subst;
      try congruence; exists wm, wb; auto.
  - intros H Hr; inversion H; subst. congruence.
Qed.

End Pieces.

(** ** The keyword arguments, the shell and a fresh [killed] *)

Lemma dict_get_set_same k v d : dict_get k (dict_set k v d) = Some v.
Proof.
  induction d as [| [k' v'] d IH]; simpl.
  - rewrite String.eqb_refl. reflexivity.
  - destruct (String.eqb k k') eqn:Hk; simpl.
    + rewrite String.eqb_refl. reflexivity.
    + rewrite Hk. exact IH.
Qed.

Lemma dict_get_set_other k k' v d :
  k' <> k -> dict_get k' (dict_set k v d) = dict_get k' d.
Proof.
  intros Hne. apply String.eqb_neq in Hne.
  induction d as [| [k0 v0] d IH]; simpl.
  - rewrite Hne. reflexivity.
  - destruct (String.eqb k k0) eqn:Hk; simpl.
    + apply String.eqb_eq in Hk. subst k0. rewrite Hne. reflexivity.
    + destruct (String.eqb k' k0); [reflexivity | exact IH].
Qed.

Section Kwargs.

Variable E : Oracle.

(** The child of a checkpoint run finds the repository root under the name
    DVC_ROOT and "1" under the name DVC_CHECKPOINT in its environment, and
    every other variable as the base environment has it; without a
    checkpoint callback the environment is the base environment.  The
    working directory is the stage's, file descriptors are closed, and
    [shell] is set on Windows only. *)
Theorem checkpoint_env_marks_the_child stage cf :
  let kw := prepare_kwargs E stage cf in
  kw_cwd kw = wdir stage
  /\ kw_close_fds kw = true
  /\ kw_shell kw = String.eqb (os_name E) "nt"
  /\ match cf with
     | None => kw_env kw = fix_env E
     | Some _ =>
         dict_get (DVC_ROOT E) (kw_env kw) = Some (root_dir stage)
         /\ (DVC_CHECKPOINT E <> DVC_ROOT E ->
             dict_get (DVC_CHECKPOINT E) (kw_env kw) = Some "1")
         /\ (forall k, k <> DVC_CHECKPOINT E -> k <> DVC_ROOT E ->
                       dict_get k (kw_env kw) = dict_get k (fix_env E))
     end.
Proof.
  unfold prepare_kwargs. simpl. repeat split.
  destruct cf as [f |]; [| reflexivity].
  unfold dict_update, _checkpoint_env. simpl. repeat split.
  - apply dict_get_set_same.
  - intros Hne. rewrite dict_get_set_other by exact Hne.
    apply dict_get_set_same.
  - intros k H1 H2. rewrite !dict_get_set_other by assumption. reflexivity.
Qed.

(** Without a checkpoint callback a run that has launched its child and has
    waited for it ends with [killed] not set, whatever an earlier run has
    left in it: it returns when the exit status is 0 and raises
    StageCmdFailedError otherwise, never CheckpointKilledError. *)
Theorem plain_run_starts_with_fresh_killed fuel stage ex c kw w r w' n :
  popen_result E (_make_cmd ex c) (trace w ++ [EvPopen (_make_cmd ex c) kw])
  = inr n ->
  _run E fuel stage ex c None kw w = (r, w') ->
  killed w' = false
  /\ exists code,
      status w' = Some code
      /\ r = (if Z.eqb code 0 then Ok tt
              else Raise (StageCmdFailedError c (Some code))).
Proof.
  intros Hl. unfold _run, checkpoint_monitor, subprocess_Popen,
    proc_communicate, collect_status, signal_signal, _run_outcome, when.
  unfold try_finally, bind, gets, ret, raise, status. simpl. rewrite Hl. simpl.
  destruct (in_main_thread E); simpl;
    try destruct (handler_truthy (sigint w)); simpl;
    destruct (exit_code E _) as [| q | q] eqn:Hc; simpl;
    intros H; inversion H; subst; clear H; simpl;
    (split; [reflexivity |]); eexists; (split; [reflexivity |]);
    rewrite ?Hc; reflexivity.
Qed.

End Kwargs.

Section Shell.

(** The flags depend on the last component of the shell's path only, and not
    on the case of its letters: a zsh in any directory is started with
    --no-rcs, a bash with --noprofile --norc, any other shell with no flag,
    and the command is always the one argument after -c. *)
Theorem shell_flags_by_last_component dir name c :
  PyStr.has_sep name = false ->
  let exe := (dir ++ "/" ++ name)%string in
  (PyStr.lower name = "zsh" ->
   _make_cmd (Some exe) c = Argv [exe; "--no-rcs"; "-c"; c])
  /\ (PyStr.lower name = "bash" ->
      _make_cmd (Some exe) c = Argv [exe; "--noprofile"; "--norc"; "-c"; c])
  /\ (PyStr.lower name <> "zsh" -> PyStr.lower name <> "bash" ->
      _make_cmd (Some exe) c = Argv [exe; "-c"; c]).
Proof.
  intros Hn exe. unfold _make_cmd. unfold exe.
  rewrite (basename_join dir name Hn). unfold opts_get.
  repeat split.
  - intros ->. reflexivity.
  - intros ->. reflexivity.
  - intros Hz Hb. apply String.eqb_neq in Hz, Hb. rewrite Hz, Hb.
    reflexivity.
Qed.

(** [get_executable] gives no executable on Windows and nowhere else; the
    executable it gives is never the empty string: it is the value of SHELL
    when that is set and not empty, and /bin/sh otherwise. *)
Theorem executable_is_never_empty os shell :
  match get_executable os shell with
  | None => os = "nt"
  | Some exe =>
      os <> "nt" /\ exe <> ""
      /\ match shell with
         | Some s => if str_truthy s then exe = s else exe = "/bin/sh"
         | None => exe = "/bin/sh"
         end
  end.
Proof.
  unfold get_executable. destruct (String.eqb os "nt") eqn:Hos; simpl.
  - apply String.eqb_eq. exact Hos.
  - apply String.eqb_neq in Hos. split; [exact Hos |].
    destruct shell as [s |]; [destruct s |]; simpl;
      split; try reflexivity; discriminate.
Qed.

End Shell.

(** ** The added theorems at concrete inputs *)

Lemma fish_warning_once_witness :
  let res := cmd_run Scenario.fish 0 Sample.two_commands false None
                     Scenario.start in
  count is_warn_fish (events_since Scenario.start (snd res)) = 1%nat.
Proof.
  intros res.
  destruct (fish_warning_once Scenario.fish 0 Sample.two_commands false None
              Scenario.start (fst res) (snd res))
    as [l [_ [_ Hc]]].
  - vm_compute; reflexivity.
  - exact Hc.
Defined.

Lemma displays_and_launches_in_order_witness :
  let E := Sample.failing_callback 3 in
  let res := cmd_run E 10 Sample.two_commands false (Some (Callable 0))
                     Scenario.start in
  let kw := prepare_kwargs E Sample.two_commands (Some (Callable 0)) in
  let steps := filter is_run_step (events_since Scenario.start (snd res)) in
  steps = [EvDisplay "exit 3";
           EvPopen (Argv ["/bin/sh"; "-c"; "exit 3"]) kw;
           EvExit 4242 3]
  /\ fst res = Raise (CheckpointKilledError "exit 3" (Some 3))
  /\ stepped E (resolved_executable E) kw ["exit 3"; "echo B"] steps
             (fst res).
Proof.
  intros E res kw steps. split; [vm_compute; reflexivity |].
  split; [vm_compute; reflexivity |].
  apply (displays_and_launches_in_order E 10 Sample.two_commands
           (Some (Callable 0)) Scenario.start (fst res) (snd res)).
  - vm_compute; reflexivity.
  - reflexivity.
Defined.

Lemma launch_error_propagates_witness :
  _run Scenario.no_launch 0 Sample.train (Some "/bin/sh") "python train.py"
       None Sample.kwargs Scenario.start
  = (Raise (FileNotFoundError "/bin/sh"),
     logged [EvPopen (Argv ["/bin/sh"; "-c"; "python train.py"])
                     Sample.kwargs]
            (run_entry Scenario.start)).
Proof.
  apply (launch_error_propagates Scenario.no_launch 0 Sample.train
           (Some "/bin/sh") "python train.py" None Sample.kwargs
           Scenario.start (FileNotFoundError "/bin/sh")).
  reflexivity.
Defined.

Lemma sigint_suppression_window_witness :
  let E := Sample.failing_callback (-15) in
  let res := _run E 10 Sample.train (Some "/bin/sh") "python train.py"
                  (Some (Callable 0)) Sample.kwargs Scenario.start in
  exists l,
    filter is_signal l = []
    /\ events_since Scenario.start (snd res)
       = EvPopen (Argv ["/bin/sh"; "-c"; "python train.py"]) Sample.kwargs
           :: [EvSignal SIG_IGN] ++ l
           ++ [EvSignal Sample.default_int_handler].
Proof.
  intros E res.
  apply (sigint_suppression_window E 10 Sample.train (Some "/bin/sh")
           "python train.py" (Some (Callable 0)) Sample.kwargs
           Scenario.start (fst res) (snd res) 4242%nat).
  - vm_compute; reflexivity.
  - vm_compute; reflexivity.
  - vm_compute; discriminate.
Defined.

Lemma monitor_handles_each_marker_once_witness :
  let E := Scenario.checkpoints_succeed in
  let res := _checkpoint_run E 10 Sample.train (Callable 0) 4242
                             Sample.world_with_marker in
  let evs := events_since Sample.world_with_marker (snd res) in
  count is_save evs = count is_found evs
  /\ count is_remove evs = count is_found evs.
Proof.
  intros E res.
  apply (monitor_handles_each_marker_once E 10 Sample.train (Callable 0)
           4242%nat Sample.world_with_marker (fst res) (snd res)).
  vm_compute; reflexivity.
Defined.

Lemma monitor_kills_and_flags_together_witness :
  let E := Sample.failing_callback 0 in
  let res := _checkpoint_run E 10 Sample.train (Callable 0) 4242
                             Sample.world_with_marker in
  let evs := events_since Sample.world_with_marker (snd res) in
  killed (snd res)
  = killed Sample.world_with_marker || existsb is_killed_set evs
  /\ count is_kill_call evs = count is_killed_set evs.
Proof.
  intros E res.
  apply (monitor_kills_and_flags_together E 10 Sample.train (Callable 0)
           4242%nat Sample.world_with_marker (fst res) (snd res)).
  vm_compute; reflexivity.
Defined.

Lemma monitor_returns_at_stop_request_witness :
  let E := Scenario.checkpoints_succeed in
  let res := _checkpoint_run E 10 Sample.train (Callable 0) 4242
                             Sample.world_with_marker in
  let evs := events_since Sample.world_with_marker (snd res) in
  exists k,
    filter is_done_wait evs
    = repeat (EvDoneWait false) k ++ [EvDoneWait true]
    /\ count is_poll evs = S k.
Proof.
  intros E res.
  apply (proj1 (monitor_returns_at_stop_request E 10 Sample.train
                  (Callable 0) 4242%nat Sample.world_with_marker
                  (fst res) (snd res) ltac:(vm_compute; reflexivity))).
  vm_compute; reflexivity.
Defined.

Lemma successful_checkpoints_never_kill_witness :
  let E := Scenario.checkpoints_succeed in
  let res := _checkpoint_run E 10 Sample.train (Callable 0) 4242
                             Sample.world_with_marker in
  let evs := events_since Sample.world_with_marker (snd res) in
  count is_call evs = count is_found evs
  /\ count is_kill_call evs = 0%nat
  /\ killed (snd res) = killed Sample.world_with_marker
  /\ (fst res = Ok tt \/ fst res = Diverge
      \/ (fst res
          = Raise (FileNotFoundError (signal_path E Sample.train))
          /\ marker_gone E (trace (snd res)) = true)).
Proof.
  intros E res.
  apply (successful_checkpoints_never_kill E (Callable 0)
           (fun _ => eq_refl) (fun _ => eq_refl) (fun _ => eq_refl)
           10 Sample.train 4242%nat Sample.world_with_marker
           (fst res) (snd res)).
  vm_compute; reflexivity.
Defined.

Lemma callback_only_after_save_and_commit_witness :
  let E := Sample.failing_callback 0 in
  let w := Sample.world_with_marker in
  let res := _run_callback E Sample.train (Callable 0) w in
  filter (fun e => is_save e || is_commit e || is_call e)
         (events_since w (snd res))
  = [EvSave; EvCommit; EvCall (Callable 0)]
  /\ fst res = Raise (OtherException "commit failed").
Proof.
  intros E w res.
  apply (callback_only_after_save_and_commit E Sample.train (Callable 0) w
           (fst res) (snd res)).
  vm_compute; reflexivity.
Defined.

Lemma monitor_context_passes_body_outcome_witness :
  let E := Scenario.checkpoints_succeed in
  let body := proc_communicate E in
  let res := checkpoint_monitor E 10 Sample.train (Some (Callable 0)) 4242
                                body Sample.world_with_marker in
  exists wm wb,
    body wm = (fst res, wb)
    /\ snd res = logged [EvThreadJoin] (logged [EvDoneSet] wb).
Proof.
  intros E body res.
  destruct (monitor_context_passes_body_outcome E unit 10 Sample.train
              (Callable 0) 4242%nat body Sample.world_with_marker
              (fst res) (snd res))
    as [wm [wb [_ [Hb Hw]]]].
  - vm_compute; reflexivity.
  - vm_compute; discriminate.
  - exists wm, wb. auto.
Defined.

Lemma plain_run_starts_with_fresh_killed_witness :
  let E := Sample.plain None 3 in
  let w := {| trace := []; sigint := Sample.default_int_handler;
              marker := false; p := None; old_handler := HandlerNone;
              killed := true |} in
  let res := _run E 0 Sample.two_commands (Some "/bin/sh") "exit 3" None
                  Sample.kwargs w in
  killed w = true /\ killed (snd res) = false.
Proof.
  intros E w res. split; [reflexivity |].
  apply (plain_run_starts_with_fresh_killed E 0 Sample.two_commands
           (Some "/bin/sh") "exit 3" Sample.kwargs w (fst res) (snd res)
           4242%nat).
  - vm_compute; reflexivity.
  - vm_compute; reflexivity.
Defined.

Lemma shell_flags_by_last_component_witness :
  _make_cmd (Some "/usr/local/bin/Zsh") "echo hi"
  = Argv ["/usr/local/bin/Zsh"; "--no-rcs"; "-c"; "echo hi"].
Proof.
  apply (proj1 (shell_flags_by_last_component "/usr/local/bin" "Zsh"
                  "echo hi" eq_refl)).
  reflexivity.
Defined.
